(** * MCP server evaluation harness: a shallow embedding of
      [skills/mcp-builder/scripts/evaluation.py]

    The development has two parts.  Module [Py] models the fragment of the
    Python runtime the script relies on: text as sequences of code points,
    UTF-8 decoding, [str.strip], [str.split], JSON values with the dynamic
    operations the script applies to them, and [json.loads].  The second
    part is the script itself, written in a state-and-exception monad:
    the evaluator object, the child processes it launches, the four probes,
    the report and [main]. *)

From Stdlib Require Import String Ascii Strings.Byte ZArith NArith Bool Lia List.
Import ListNotations.

#[global] Set Warnings "-register-all".

Module Py.

(** ** Text and bytes *)

(** A Python [str] is a sequence of Unicode code points. *)
Definition str := list N.

(** Python [bytes]. *)
Definition bytes := list byte.

(** An ASCII literal of the script as a [str]. *)
Definition lit (s : string) : str := map Byte.to_N (list_byte_of_string s).

(** The same literal as [bytes]. *)
Definition blit (s : string) : bytes := list_byte_of_string s.

(** JSON text is written below with single quotes; [js] turns each of them
    into the double quote (code point 34) of the wire format. *)
Definition js (s : string) : str :=
  map (fun c => if N.eqb c 39 then 34%N else c) (lit s).

Definition newline : N := 10%N.


Fixpoint str_eqb (a b : str) : bool :=
  match a, b with
  | [], [] => true
  | x :: a', y :: b' => N.eqb x y && str_eqb a' b'
  | _, _ => false
  end.

Fixpoint starts_with (prefix s : str) : bool :=
  match prefix, s with
  | [], _ => true
  | x :: p', y :: s' => N.eqb x y && starts_with p' s'
  | _ :: _, [] => false
  end.

(** [sub in s] for two strings. *)
Fixpoint str_contains (sub s : str) : bool :=
  starts_with sub s ||
  match s with
  | [] => false
  | _ :: s' => str_contains sub s'
  end.

(** [str(n)] for a non-negative [int], as produced by an f-string. *)
Fixpoint digits_of (fuel : nat) (n : N) (acc : str) : str :=
  match fuel with
  | O => acc
  | S fuel' =>
      let acc' := (48 + n mod 10)%N :: acc in
      if (n <? 10)%N then acc' else digits_of fuel' (n / 10)%N acc'
  end.

Definition str_of_nat (n : nat) : str :=
  digits_of (S n) (N.of_nat n) [].

(** ** [bytes.decode()]: strict UTF-8 *)

Definition is_cont (b : N) : bool := (128 <=? b)%N && (b <=? 191)%N.

Definition cont_bits (b : N) : N := (b - 128)%N.

(** A decoded scalar value is kept only when it is not an overlong form, not
    a surrogate and not above U+10FFFF. *)
Definition scalar_ok (lo cp : N) : bool :=
  (lo <=? cp)%N && (cp <=? 1114111)%N &&
  negb ((55296 <=? cp)%N && (cp <=? 57343)%N).

Fixpoint utf8_decode_N (bs : list N) : option str :=
  match bs with
  | [] => Some []
  | b0 :: r0 =>
      if (b0 <? 128)%N then option_map (cons b0) (utf8_decode_N r0)
      else if (b0 <? 194)%N then None
      else if (b0 <? 224)%N then
        match r0 with
        | b1 :: r1 =>
            if is_cont b1
            then option_map (cons ((b0 - 192) * 64 + cont_bits b1)%N)
                            (utf8_decode_N r1)
            else None
        | _ => None
        end
      else if (b0 <? 240)%N then
        match r0 with
        | b1 :: b2 :: r2 =>
            let cp := ((b0 - 224) * 4096 + cont_bits b1 * 64 + cont_bits b2)%N in
            if is_cont b1 && is_cont b2 && scalar_ok 2048 cp
            then option_map (cons cp) (utf8_decode_N r2)
            else None
        | _ => None
        end
      else if (b0 <? 245)%N then
        match r0 with
        | b1 :: b2 :: b3 :: r3 =>
            let cp := ((b0 - 240) * 262144 + cont_bits b1 * 4096
                       + cont_bits b2 * 64 + cont_bits b3)%N in
            if is_cont b1 && is_cont b2 && is_cont b3 && scalar_ok 65536 cp
            then option_map (cons cp) (utf8_decode_N r3)
            else None
        | _ => None
        end
      else None
  end.

(** [b.decode()]; [None] stands for [UnicodeDecodeError]. *)
Definition decode (b : bytes) : option str :=
  utf8_decode_N (map Byte.to_N b).

(** ** [str.strip()] and [str.split("\n")] *)

(** [str.isspace] on one code point: the characters [strip()] removes. *)
Definition isspace (c : N) : bool :=
  ((9 <=? c) && (c <=? 13) || (28 <=? c) && (c <=? 32)
   || (c =? 133) || (c =? 160) || (c =? 5760)
   || (8192 <=? c) && (c <=? 8202)
   || (c =? 8232) || (c =? 8233) || (c =? 8239) || (c =? 8287)
   || (c =? 12288))%N.

Fixpoint lstrip (s : str) : str :=
  match s with
  | c :: s' => if isspace c then lstrip s' else s
  | [] => []
  end.

Definition rstrip (s : str) : str := rev (lstrip (rev s)).

Definition strip (s : str) : str := rstrip (lstrip s).

(** [s.split("\n")]: never empty; an empty [s] gives one empty line. *)
Fixpoint split_lines (s : str) : list str :=
  match s with
  | [] => [[]]
  | c :: s' =>
      if N.eqb c newline then [] :: split_lines s'
      else match split_lines s' with
           | l :: ls => (c :: l) :: ls
           | [] => [[c]]
           end
  end.

(** ** Objects: the values [json.loads] produces *)

(** A [float] read from a decimal literal is kept as that literal,
    [(-1)^neg * m * 10^e]; it denotes the double nearest to it (ties to
    even), which is what [float()] returns.  [NaN], [Infinity] and
    [-Infinity] are the constants [json.loads] accepts beside numbers. *)
Inductive pyfloat :=
| FNaN
| FInf (neg : bool)
| FDec (neg : bool) (m : N) (e : Z).

(** The literal rounds to [0.0] or [-0.0]: it is at most [2^-1075], half of
    the smallest positive double. *)
Definition float_is_zero (f : pyfloat) : bool :=
  match f with
  | FDec _ m e =>
      (m =? 0)%N ||
      ((e <? 0)%Z && (Z.of_N m * 2 ^ 1075 <=? 10 ^ (- e))%Z)
  | _ => false
  end.

(** The literal rounds to [2.0]: it lies between [2 - 2^-53] and
    [2 + 2^-52], the midpoints to the neighbouring doubles, both of which
    round to the even mantissa of [2.0]. *)
Definition float_is_two (f : pyfloat) : bool :=
  match f with
  | FDec false m e =>
      if (0 <=? e)%Z then (Z.of_N m * 10 ^ e =? 2)%Z
      else ((2 ^ 54 - 1) * 10 ^ (- e) <=? Z.of_N m * 2 ^ 53)%Z
           && (Z.of_N m * 2 ^ 52 <=? (2 ^ 53 + 1) * 10 ^ (- e))%Z
  | _ => false
  end.

(** [None], [bool], [int], [float], [str], [list] and [dict].  A [dict] keeps
    its keys in insertion order and holds each key once. *)
Inductive pyobj :=
| PyNone
| PyBool (b : bool)
| PyInt (z : Z)
| PyFloat (f : pyfloat)
| PyStr (s : str)
| PyList (items : list pyobj)
| PyDict (members : list (str * pyobj)).

Definition dict := list (str * pyobj).

Fixpoint dict_lookup (d : dict) (k : str) : option pyobj :=
  match d with
  | [] => None
  | (k', v) :: d' => if str_eqb k' k then Some v else dict_lookup d' k
  end.

(** [d[k] = v]: a key already present keeps its place and takes the new
    value; a new key goes to the end. *)
Fixpoint dict_set (d : dict) (k : str) (v : pyobj) : dict :=
  match d with
  | [] => [(k, v)]
  | (k', v') :: d' =>
      if str_eqb k' k then (k', v) :: d' else (k', v') :: dict_set d' k v
  end.

Inductive pytype := TNone | TBool | TInt | TFloat | TStr | TList | TDict.

Definition type_of (v : pyobj) : pytype :=
  match v with
  | PyNone => TNone
  | PyBool _ => TBool
  | PyInt _ => TInt
  | PyFloat _ => TFloat
  | PyStr _ => TStr
  | PyList _ => TList
  | PyDict _ => TDict
  end.

(** ** Exceptions

    Every class below derives from [Exception].  Interrupts and task
    cancellation, which derive from [BaseException] only, reach the script
    from outside its own work and are not modelled.  The text [str(e)] of an
    exception is worded by the interpreter and the operating system; the
    script only pastes it into messages, so it is left to the environment
    (see [Env] below). *)

Inductive type_error :=
| NotContainer      (* [x in v] on a value that is not iterable *)
| NoLen             (* [len(v)] *)
| NotIterable       (* [for x in v] *)
| BadIndex          (* [v["key"]] on a list or a string *)
| NotSubscriptable. (* [v["key"]] on any other value without items *)

Inductive exn :=
| TimeoutError                                  (* [asyncio.TimeoutError] *)
| OSError (errno : Z)                           (* launch and pipe failures *)
| UnicodeDecodeError (data : bytes)
| JSONDecodeError (doc : str)
| AttributeError (ty : pytype) (attr : str)
| TypeError (why : type_error) (ty : pytype)
| KeyError (key : str)
| OtherException (tag : nat).                   (* any other [Exception] *)

Definition is_TimeoutError (e : exn) : bool :=
  match e with TimeoutError => true | _ => false end.

Definition is_JSONDecodeError (e : exn) : bool :=
  match e with JSONDecodeError _ => true | _ => false end.

(** The result of an operation that may raise. *)
Inductive res (A : Type) :=
| Ok (a : A)
| Err (e : exn).
Arguments Ok {A} a.
Arguments Err {A} e.

(** ** Dynamic operations on objects *)

(** [bool(v)], as taken by [if v], [v and ...] and [not v]. *)
Definition truthy (v : pyobj) : bool :=
  match v with
  | PyNone => false
  | PyBool b => b
  | PyInt z => negb (z =? 0)%Z
  | PyFloat f => negb (float_is_zero f)
  | PyStr s => match s with [] => false | _ => true end
  | PyList l => match l with [] => false | _ => true end
  | PyDict d => match d with [] => false | _ => true end
  end.

(** [v == "s"] for a string literal. *)
Definition eq_str (v : pyobj) (s : str) : bool :=
  match v with
  | PyStr s' => str_eqb s' s
  | _ => false
  end.

(** [v == 2].  [True] equals 1 and [False] equals 0, never 2. *)
Definition eq_two (v : pyobj) : bool :=
  match v with
  | PyInt z => (z =? 2)%Z
  | PyFloat f => float_is_two f
  | _ => false
  end.

(** ["key" in v]. *)
Definition contains (key : str) (v : pyobj) : res bool :=
  match v with
  | PyDict d => Ok (match dict_lookup d key with Some _ => true | None => false end)
  | PyList l => Ok (existsb (fun x => eq_str x key) l)
  | PyStr s => Ok (str_contains key s)
  | _ => Err (TypeError NotContainer (type_of v))
  end.

(** [v["key"]]. *)
Definition getitem (v : pyobj) (key : str) : res pyobj :=
  match v with
  | PyDict d =>
      match dict_lookup d key with
      | Some x => Ok x
      | None => Err (KeyError key)
      end
  | PyList _ | PyStr _ => Err (TypeError BadIndex (type_of v))
  | _ => Err (TypeError NotSubscriptable (type_of v))
  end.

(** [v.get("key", default)]: only a [dict] has the method. *)
Definition get (v : pyobj) (key : str) (default : pyobj) : res pyobj :=
  match v with
  | PyDict d =>
      Ok (match dict_lookup d key with Some x => x | None => default end)
  | _ => Err (AttributeError (type_of v) (lit "get"))
  end.

(** [len(v)]. *)
Definition len (v : pyobj) : res nat :=
  match v with
  | PyList l => Ok (List.length l)
  | PyStr s => Ok (List.length s)
  | PyDict d => Ok (List.length d)
  | _ => Err (TypeError NoLen (type_of v))
  end.

(** The items [for x in v] runs over: the elements of a list, the keys of a
    dict, the characters of a string. *)
Definition iter (v : pyobj) : res (list pyobj) :=
  match v with
  | PyList l => Ok l
  | PyDict d => Ok (map (fun kv => PyStr (fst kv)) d)
  | PyStr s => Ok (map (fun c => PyStr [c]) s)
  | _ => Err (TypeError NotIterable (type_of v))
  end.

(** ** [json.loads]

    The decoder is modelled as a scanner followed by a stack machine, both
    reading their input once from left to right.  It accepts the language of
    the default decoder (strict mode, with the constants [NaN], [Infinity]
    and [-Infinity]) and builds the same objects; every rejected document
    is a [JSONDecodeError].  Limits of the interpreter that depend on its
    configuration (recursion depth on deeply nested documents, the digit
    limit of [int]) are outside the model. *)

Inductive token :=
| TLBrace | TRBrace | TLBracket | TRBracket | TColon | TComma
| TString (s : str)
| TAtom (lexeme : str).   (* a number or one of the constants *)

(** Scanner modes.  Accumulated text is kept reversed.  Inside a string,
    [hi] is a high surrogate read from a [\uXXXX] escape that still waits
    for a low surrogate in the directly following escape. *)
Inductive lex_mode :=
| LIdle
| LAtom (acc : str)
| LStr (acc : str) (hi : option N)
| LEsc (acc : str) (hi : option N)
| LHex (acc : str) (hi : option N) (ds : list N)
| LFail.

Definition is_ws (c : N) : bool :=
  ((c =? 32) || (c =? 9) || (c =? 10) || (c =? 13))%N.

Definition is_digit (c : N) : bool := (48 <=? c)%N && (c <=? 57)%N.

Definition is_letter (c : N) : bool :=
  ((65 <=? c) && (c <=? 90) || (97 <=? c) && (c <=? 122))%N.

(** Characters of numbers and constants: digits, letters, [-], [+], [.]. *)
Definition is_atom_char (c : N) : bool :=
  (is_digit c || is_letter c || (c =? 45) || (c =? 43) || (c =? 46))%N.

Definition hex_value (c : N) : option N :=
  if is_digit c then Some (c - 48)%N
  else if ((97 <=? c) && (c <=? 102))%N then Some (c - 87)%N
  else if ((65 <=? c) && (c <=? 70))%N then Some (c - 55)%N
  else None.

Definition is_high_surrogate (u : N) : bool := (55296 <=? u)%N && (u <=? 56319)%N.
Definition is_low_surrogate (u : N) : bool := (56320 <=? u)%N && (u <=? 57343)%N.

Definition join_surrogates (h l : N) : N :=
  (65536 + (h - 55296) * 1024 + (l - 56320))%N.

(** The pending high surrogate, if any, stays alone. *)
Definition flush (acc : str) (hi : option N) : str :=
  match hi with
  | Some h => h :: acc
  | None => acc
  end.

(** A complete [\uXXXX] escape with value [u]. *)
Definition lex_unit (acc : str) (hi : option N) (u : N) : lex_mode :=
  match hi with
  | Some h =>
      if is_low_surrogate u then LStr (join_surrogates h u :: acc) None
      else if is_high_surrogate u then LStr (h :: acc) (Some u)
      else LStr (u :: h :: acc) None
  | None =>
      if is_high_surrogate u then LStr acc (Some u)
      else LStr (u :: acc) None
  end.

(** The character after a backslash, [u] apart. *)
Definition escape_value (c : N) : option N :=
  if (c =? 34)%N then Some 34%N          (* double quote *)
  else if (c =? 92)%N then Some 92%N     (* backslash *)
  else if (c =? 47)%N then Some 47%N     (* slash *)
  else if (c =? 98)%N then Some 8%N      (* b: backspace *)
  else if (c =? 102)%N then Some 12%N    (* f: form feed *)
  else if (c =? 110)%N then Some 10%N    (* n: line feed *)
  else if (c =? 114)%N then Some 13%N    (* r: carriage return *)
  else if (c =? 116)%N then Some 9%N     (* t: tab *)
  else None.

Definition lex_idle (toks : list token) (c : N) : lex_mode * list token :=
  if is_ws c then (LIdle, toks)
  else if (c =? 123)%N then (LIdle, TLBrace :: toks)
  else if (c =? 125)%N then (LIdle, TRBrace :: toks)
  else if (c =? 91)%N then (LIdle, TLBracket :: toks)
  else if (c =? 93)%N then (LIdle, TRBracket :: toks)
  else if (c =? 58)%N then (LIdle, TColon :: toks)
  else if (c =? 44)%N then (LIdle, TComma :: toks)
  else if (c =? 34)%N then (LStr [] None, toks)
  else if is_atom_char c then (LAtom [c], toks)
  else (LFail, toks).

(** One character of input; tokens are collected in reverse. *)
Definition lex_step (st : lex_mode * list token) (c : N) : lex_mode * list token :=
  let (mode, toks) := st in
  match mode with
  | LIdle => lex_idle toks c
  | LAtom acc =>
      if is_atom_char c then (LAtom (c :: acc), toks)
      else lex_idle (TAtom (rev acc) :: toks) c
  | LStr acc hi =>
      if (c =? 92)%N then (LEsc acc hi, toks)
      else if (c =? 34)%N then (LIdle, TString (rev (flush acc hi)) :: toks)
      else if (c <? 32)%N then (LFail, toks)   (* control character *)
      else (LStr (c :: flush acc hi) None, toks)
  | LEsc acc hi =>
      if (c =? 117)%N then (LHex acc hi [], toks)
      else match escape_value c with
           | Some x => (LStr (x :: flush acc hi) None, toks)
           | None => (LFail, toks)
           end
  | LHex acc hi ds =>
      match hex_value c with
      | Some d =>
          match ds with
          | [d2; d1; d0] =>
              (lex_unit acc hi (d0 * 4096 + d1 * 256 + d2 * 16 + d)%N, toks)
          | _ => (LHex acc hi (d :: ds), toks)
          end
      | None => (LFail, toks)
      end
  | LFail => (LFail, toks)
  end.

Definition tokenize (s : str) : option (list token) :=
  match fold_left lex_step s (LIdle, []) with
  | (LIdle, toks) => Some (rev toks)
  | (LAtom acc, toks) => Some (rev (TAtom (rev acc) :: toks))
  | _ => None                              (* unterminated string *)
  end.

(** *** Numbers and constants *)

(** The leading decimal digits of [s], as values, and what follows them. *)
Fixpoint span_digits (s : str) : list N * str :=
  match s with
  | c :: s' =>
      if is_digit c
      then let (ds, r) := span_digits s' in ((c - 48)%N :: ds, r)
      else ([], s)
  | [] => ([], [])
  end.

Definition number_of_digits (ds : list N) : N :=
  fold_left (fun a d => (10 * a + d)%N) ds 0%N.

(** The optional exponent up to the end of the lexeme: [e] or [E], an
    optional sign, at least one digit. *)
Definition parse_exponent (s : str) : option (option Z) :=
  match s with
  | [] => Some None
  | c :: r =>
      if ((c =? 101) || (c =? 69))%N then
        let (neg, r') :=
          match r with
          | x :: r'' =>
              if (x =? 45)%N then (true, r'')
              else if (x =? 43)%N then (false, r'')
              else (false, r)
          | [] => (false, r)
          end in
        match span_digits r' with
        | ((_ :: _) as ds, []) =>
            let v := Z.of_N (number_of_digits ds) in
            Some (Some (if neg then - v else v)%Z)
        | _ => None
        end
      else None
  end.

(** A number: an optional minus sign; an integer part that is the digit 0 or
    starts with a digit from 1 to 9; an optional fraction, a dot and at least
    one digit; an optional exponent.  It is an [int] when it has neither
    fraction nor exponent, a [float] otherwise. *)
Definition parse_number (s : str) : option pyobj :=
  let (neg, s1) :=
    match s with
    | c :: r => if (c =? 45)%N then (true, r) else (false, s)
    | [] => (false, s)
    end in
  let (ids, s2) := span_digits s1 in
  let int_ok :=
    match ids with
    | [] => false
    | d :: tl => negb (d =? 0)%N || match tl with [] => true | _ => false end
    end in
  if negb int_ok then None
  else
    let '(fds, s3, frac, frac_ok) :=
      match s2 with
      | c :: r =>
          if (c =? 46)%N
          then let (fd, r') := span_digits r in
               (fd, r', true, match fd with [] => false | _ => true end)
          else ([], s2, false, true)
      | [] => ([], s2, false, true)
      end in
    if negb frac_ok then None
    else
      match parse_exponent s3 with
      | None => None
      | Some None =>
          if frac
          then Some (PyFloat (FDec neg (number_of_digits (ids ++ fds))
                                   (- Z.of_nat (List.length fds))))
          else let v := Z.of_N (number_of_digits ids) in
               Some (PyInt (if neg then - v else v)%Z)
      | Some (Some ex) =>
          Some (PyFloat (FDec neg (number_of_digits (ids ++ fds))
                              (ex - Z.of_nat (List.length fds))))
      end.

Definition atom_value (lexeme : str) : option pyobj :=
  if str_eqb lexeme (lit "null") then Some PyNone
  else if str_eqb lexeme (lit "true") then Some (PyBool true)
  else if str_eqb lexeme (lit "false") then Some (PyBool false)
  else if str_eqb lexeme (lit "NaN") then Some (PyFloat FNaN)
  else if str_eqb lexeme (lit "Infinity") then Some (PyFloat (FInf false))
  else if str_eqb lexeme (lit "-Infinity") then Some (PyFloat (FInf true))
  else parse_number lexeme.

(** *** The stack machine *)

(** An open container: a list with its items so far (reversed), or a dict
    with its members so far and the key whose value is awaited. *)
Inductive frame :=
| FList (items : list pyobj)
| FDict (d : dict) (key : option str).

Inductive parse_mode :=
| PValue              (* a value must follow *)
| PListStart          (* after [: a value or ] *)
| PDictStart          (* after {: a key or } *)
| PKey                (* after a comma in a dict: a key *)
| PColon              (* after a key *)
| PAfter              (* after a value in a container: a comma or the end *)
| PDone (v : pyobj).  (* the document is complete *)

Definition parse_state := (parse_mode * list frame)%type.

(** A finished value goes to the innermost open container, or ends the
    document. *)
Definition deliver (v : pyobj) (stack : list frame) : option parse_state :=
  match stack with
  | [] => Some (PDone v, [])
  | FList items :: rest => Some (PAfter, FList (v :: items) :: rest)
  | FDict d (Some k) :: rest => Some (PAfter, FDict (dict_set d k v) None :: rest)
  | FDict _ None :: _ => None
  end.

Definition expects_value (m : parse_mode) : bool :=
  match m with
  | PValue | PListStart => true
  | _ => false
  end.

Definition parse_step (st : option parse_state) (t : token) : option parse_state :=
  match st with
  | None => None
  | Some (mode, stack) =>
      match t with
      | TLBracket =>
          if expects_value mode then Some (PListStart, FList [] :: stack) else None
      | TLBrace =>
          if expects_value mode then Some (PDictStart, FDict [] None :: stack) else None
      | TAtom a =>
          if expects_value mode
          then match atom_value a with
               | Some v => deliver v stack
               | None => None
               end
          else None
      | TString s =>
          match mode, stack with
          | PValue, _ | PListStart, _ => deliver (PyStr s) stack
          | PDictStart, FDict d None :: rest
          | PKey, FDict d None :: rest => Some (PColon, FDict d (Some s) :: rest)
          | _, _ => None
          end
      | TColon =>
          match mode with
          | PColon => Some (PValue, stack)
          | _ => None
          end
      | TComma =>
          match mode, stack with
          | PAfter, FList _ :: _ => Some (PValue, stack)
          | PAfter, FDict _ None :: _ => Some (PKey, stack)
          | _, _ => None
          end
      | TRBracket =>
          match mode, stack with
          | PListStart, FList items :: rest
          | PAfter, FList items :: rest => deliver (PyList (rev items)) rest
          | _, _ => None
          end
      | TRBrace =>
          match mode, stack with
          | PDictStart, FDict d None :: rest
          | PAfter, FDict d None :: rest => deliver (PyDict d) rest
          | _, _ => None
          end
      end
  end.

Definition parse_tokens (toks : list token) : option pyobj :=
  match fold_left parse_step toks (Some (PValue, [])) with
  | Some (PDone v, []) => Some v
  | _ => None
  end.

(** [json.loads(s)] for a [str] argument. *)
Definition json_loads (s : str) : res pyobj :=
  match tokenize s with
  | Some toks =>
      match parse_tokens toks with
      | Some v => Ok v
      | None => Err (JSONDecodeError s)
      end
  | None => Err (JSONDecodeError s)
  end.

(** ** [json.dumps]

    Default settings: separators [", "] and [": "], and every character
    outside the printable ASCII range escaped.  A finite [float] is written
    with [float.__repr__], the shortest decimal that reads back as the same
    double; that rendering is a parameter. *)

Definition hex_digit (n : N) : N := if (n <? 10)%N then (48 + n)%N else (87 + n)%N.

Definition u_escape (u : N) : str :=
  [92; 117; hex_digit (u / 4096); hex_digit ((u / 256) mod 16);
   hex_digit ((u / 16) mod 16); hex_digit (u mod 16)]%N.

Definition dumps_char (c : N) : str :=
  if (c =? 34)%N then [92; 34]%N
  else if (c =? 92)%N then [92; 92]%N
  else if (c =? 10)%N then [92; 110]%N
  else if (c =? 13)%N then [92; 114]%N
  else if (c =? 9)%N then [92; 116]%N
  else if (c =? 8)%N then [92; 98]%N
  else if (c =? 12)%N then [92; 102]%N
  else if ((32 <=? c) && (c <=? 126))%N then [c]
  else if (c <? 65536)%N then u_escape c
  else u_escape (55296 + (c - 65536) / 1024)%N
       ++ u_escape (56320 + (c - 65536) mod 1024)%N.

Definition dumps_str (s : str) : str :=
  [34%N] ++ flat_map dumps_char s ++ [34%N].

Definition str_of_Z (z : Z) : str :=
  match z with
  | Zneg _ => 45%N :: str_of_nat (Z.to_nat (- z))
  | _ => str_of_nat (Z.to_nat z)
  end.

(** [sep.join(parts)]. *)
Fixpoint join (sep : str) (parts : list str) : str :=
  match parts with
  | [] => []
  | [x] => x
  | x :: rest => x ++ sep ++ join sep rest
  end.

Fixpoint json_dumps (float_repr : pyfloat -> str) (v : pyobj) : str :=
  match v with
  | PyNone => lit "null"
  | PyBool true => lit "true"
  | PyBool false => lit "false"
  | PyInt z => str_of_Z z
  | PyFloat FNaN => lit "NaN"
  | PyFloat (FInf false) => lit "Infinity"
  | PyFloat (FInf true) => lit "-Infinity"
  | PyFloat f => float_repr f
  | PyStr s => dumps_str s
  | PyList l =>
      lit "[" ++ join (lit ", ") (map (json_dumps float_repr) l) ++ lit "]"
  | PyDict d =>
      lit "{"
      ++ join (lit ", ")
           (map (fun kv => dumps_str (fst kv) ++ lit ": "
                           ++ json_dumps float_repr (snd kv)) d)
      ++ lit "}"
  end.

End Py.

Import Py.

(** * The evaluation script *)

(** [@dataclass class EvaluationResult]. *)
Record EvaluationResult := {
  name : str;
  passed : bool;
  message : str;
  severity : str   (* 'error', 'warning', 'info' *)
}.

Definition error : str := lit "error".
Definition warning : str := lit "warning".
Definition info : str := lit "info".

(** ** The world outside the script *)

(** A child process as the operating system sees it.  [NotStarted] records a
    launch that failed. *)
Inductive child :=
| NotStarted
| Running
| Exited (returncode : Z).

(** What [asyncio.wait_for(process.communicate(data), timeout=10.0)] can do:
    the child reads its input, writes its output and exits within the
    bound; or the bound elapses first, which cancels the wait and raises
    [TimeoutError]; or the pipes fail. *)
Inductive exchange :=
| Completes (returncode : Z) (stdout stderr : bytes)
| TimesOut
| Fails (e : exn).

(** The environment of one run: how the n-th launch of the server command
    goes, how that child answers the text written to its input, and how the
    interpreter words exceptions and renders objects that are not strings. *)
Record Env := {
  spawn : list str -> nat -> option exn;
  serve : list str -> nat -> str -> exchange;
  exn_str : exn -> str;
  obj_repr : pyobj -> str
}.

(** The evaluator object ([server_command], [results]), the children
    launched so far in launch order, and the text printed. *)
Record State := {
  server_command : list str;
  results : list EvaluationResult;
  children : list child;
  console : str
}.

Definition with_results (s : State) (rs : list EvaluationResult) : State :=
  {| server_command := server_command s; results := rs;
     children := children s; console := console s |}.

Definition with_children (s : State) (cs : list child) : State :=
  {| server_command := server_command s; results := results s;
     children := cs; console := console s |}.

Definition with_console (s : State) (out : str) : State :=
  {| server_command := server_command s; results := results s;
     children := children s; console := out |}.

(** [MCPEvaluator.__init__]. *)
Definition MCPEvaluator (command : list str) : State :=
  {| server_command := command; results := []; children := []; console := [] |}.

(** ** Computations: state and exceptions *)

(** A computation of the script: from a state to the state it leaves and
    either a value or the exception raised. *)
Definition M (A : Type) : Type := State -> State * res A.

Definition ret {A} (a : A) : M A := fun s => (s, Ok a).

Definition bind {A B} (m : M A) (k : A -> M B) : M B :=
  fun s =>
    match m s with
    | (s', Ok a) => k a s'
    | (s', Err e) => (s', Err e)
    end.

(** An operation of the runtime used inside a computation. *)
Definition lift {A} (r : res A) : M A := fun s => (s, r).

(** [try: body / except Exception as e: handler(e)].  Every exception of the
    model derives from [Exception]. *)
Definition try_except {A} (body : M A) (handler : exn -> M A) : M A :=
  fun s =>
    match body s with
    | (s', Err e) => handler e s'
    | r => r
    end.

Declare Scope monad_scope.
Delimit Scope monad_scope with monad.
Notation "x <- m ;; k" := (bind m (fun x => k))
  (at level 61, m at next level, right associativity) : monad_scope.
Notation "m ;; k" := (bind m (fun _ => k))
  (at level 61, right associativity) : monad_scope.
Open Scope monad_scope.

(** The same sequencing for operations that only may raise. *)
Definition rbind {A B} (r : res A) (k : A -> res B) : res B :=
  match r with
  | Ok a => k a
  | Err e => Err e
  end.

(** [for x in items: body(x)]. *)
Fixpoint for_each {A} (items : list A) (body : A -> M unit) : M unit :=
  match items with
  | [] => ret tt
  | x :: rest => body x ;; for_each rest body
  end.

(** [l] with its [n]-th element replaced by [x]; [l] itself when it has no
    such element. *)
Definition replace_nth {A} (n : nat) (x : A) (l : list A) : list A :=
  firstn n l ++ match skipn n l with
                | [] => []
                | _ :: tl => x :: tl
                end.

Section Harness.

Variable env : Env.

(** [self.results.append(r)]. *)
Definition append (r : EvaluationResult) : M unit :=
  fun s => (with_results s (results s ++ [r]), Ok tt).

(** [print(line)]. *)
Definition print (line : str) : M unit :=
  fun s => (with_console s (console s ++ line ++ [newline]), Ok tt).

(** [asyncio.create_subprocess_exec( *self.server_command, ...)] with the
    three standard streams piped.  The handle is the child's index. *)
Definition create_subprocess_exec : M nat :=
  fun s =>
    let pid := List.length (children s) in
    match spawn env (server_command s) pid with
    | Some e => (with_children s (children s ++ [NotStarted]), Err e)
    | None => (with_children s (children s ++ [Running]), Ok pid)
    end.

(** [asyncio.wait_for(process.communicate(stdin_data.encode()), timeout=10.0)].
    [communicate] returns once the child has exited.  On expiry the wait is
    cancelled and [TimeoutError] is raised; nothing is sent to the child,
    whose entry stays as it was. *)
Definition wait_for_communicate (process : nat) (stdin_data : str)
  : M (bytes * bytes) :=
  fun s =>
    match serve env (server_command s) process stdin_data with
    | Completes rc out err =>
        (with_children s (replace_nth process (Exited rc) (children s)),
         Ok (out, err))
    | TimesOut => (s, Err TimeoutError)
    | Fails e => (s, Err e)
    end.

(** [process.returncode]: [None] until the child has exited. *)
Definition returncode (process : nat) : M (option Z) :=
  fun s =>
    (s, Ok match nth_error (children s) process with
           | Some (Exited rc) => Some rc
           | _ => None
           end).

(** [b.decode()]. *)
Definition bytes_decode (b : bytes) : res str :=
  match decode b with
  | Some text => Ok text
  | None => Err (UnicodeDecodeError b)
  end.

(** [str(v)] inside an f-string. *)
Definition format (v : pyobj) : str :=
  match v with
  | PyStr s => s
  | _ => obj_repr env v
  end.

(** [json.dumps(v)]. *)
Definition dumps (v : pyobj) : str :=
  json_dumps (fun f => obj_repr env (PyFloat f)) v.

(** The [initialize] request both senders build. *)
Definition init_request : pyobj :=
  PyDict [
    (lit "jsonrpc", PyStr (lit "2.0"));
    (lit "id", PyInt 1);
    (lit "method", PyStr (lit "initialize"));
    (lit "params", PyDict [
       (lit "protocolVersion", PyStr (lit "2024-11-05"));
       (lit "capabilities", PyDict []);
       (lit "clientInfo", PyDict [
          (lit "name", PyStr (lit "mcp-evaluator"));
          (lit "version", PyStr (lit "1.0.0"))])])].

(** ** [_check_server_starts] *)

Definition _check_server_starts_body : M unit :=
  process <- create_subprocess_exec ;;
  let request := init_request in
  let stdin_data := dumps request ++ [newline] in
  io <- wait_for_communicate process stdin_data ;;
  let (stdout, stderr) := io : bytes * bytes in
  rc <- returncode process ;;
  if match rc with Some 0%Z => true | _ => false end
     || match stdout with [] => false | _ => true end
  then
    append {| name := lit "Server Startup"; passed := true;
              message := lit "Server starts successfully";
              severity := info |}
  else
    text <- lift (bytes_decode stderr) ;;
    append {| name := lit "Server Startup"; passed := false;
              message := lit "Server failed to start: " ++ text;
              severity := error |}.

Definition _check_server_starts_handler (e : exn) : M unit :=
  if is_TimeoutError e then
    append {| name := lit "Server Startup"; passed := false;
              message := lit "Server startup timed out";
              severity := error |}
  else
    append {| name := lit "Server Startup"; passed := false;
              message := lit "Error starting server: " ++ exn_str env e;
              severity := error |}.

Definition _check_server_starts : M unit :=
  try_except _check_server_starts_body _check_server_starts_handler.

(** ** [_send_request] *)

(** The body of the [try] in the response loop, for one non-empty line:
    [Some r] when the line makes the function return [r], [None] when the
    loop goes on to the next line. *)
Definition try_line (line : str) : res (option pyobj) :=
  rbind (json_loads line) (fun response =>
  rbind (get response (lit "id") PyNone) (fun id =>
  if eq_two id
  then rbind (get response (lit "result") PyNone) (fun r => Ok (Some r))
  else Ok None)).

(** [for line in ...: if line: try: ... except json.JSONDecodeError: continue]
    followed by [return None]. *)
Fixpoint scan_lines (lines : list str) : res pyobj :=
  match lines with
  | [] => Ok PyNone
  | line :: rest =>
      match line with
      | [] => scan_lines rest
      | _ :: _ =>
          match try_line line with
          | Ok (Some r) => Ok r
          | Ok None => scan_lines rest
          | Err e => if is_JSONDecodeError e then scan_lines rest else Err e
          end
      end
  end.

(** The response loop on the captured output:
    [stdout.decode().strip().split("\n")] and the scan of its lines. *)
Definition parse_responses (stdout : bytes) : res pyobj :=
  rbind (bytes_decode stdout) (fun text =>
  scan_lines (split_lines (strip text))).

Definition _send_request (method : str) (params : pyobj) : M pyobj :=
  process <- create_subprocess_exec ;;
  let request :=
    PyDict [ (lit "jsonrpc", PyStr (lit "2.0"));
             (lit "id", PyInt 2);
             (lit "method", PyStr method);
             (lit "params", params) ] in
  let stdin_data :=
    dumps init_request ++ [newline] ++ dumps request ++ [newline] in
  io <- wait_for_communicate process stdin_data ;;
  lift (parse_responses (fst io)).

(** ** [_check_tools_list] *)

(** [result and key in result]. *)
Definition and_contains (result : pyobj) (key : str) : res bool :=
  if truthy result then contains key result else Ok false.

Definition _check_tools_list_body : M unit :=
  result <- _send_request (lit "tools/list") (PyDict []) ;;
  has_tools <- lift (and_contains result (lit "tools")) ;;
  if has_tools : bool then
    tools <- lift (getitem result (lit "tools")) ;;
    n <- lift (len tools) ;;
    append {| name := lit "Tools List"; passed := true;
              message := lit "Found " ++ str_of_nat n ++ lit " tool(s)";
              severity := info |} ;;
    n' <- lift (len tools) ;;
    if Nat.eqb n' 0 then
      append {| name := lit "Tools Count"; passed := false;
                message := lit "Server has no tools defined";
                severity := warning |}
    else ret tt
  else
    append {| name := lit "Tools List"; passed := false;
              message := lit "Invalid tools/list response";
              severity := error |}.

Definition _check_tools_list_handler (e : exn) : M unit :=
  append {| name := lit "Tools List"; passed := false;
            message := lit "Error listing tools: " ++ exn_str env e;
            severity := error |}.

Definition _check_tools_list : M unit :=
  try_except _check_tools_list_body _check_tools_list_handler.

(** ** [_check_tool_schemas] *)

(** ["description" not in tool or not tool["description"]]. *)
Definition description_missing (tool : pyobj) : res bool :=
  rbind (contains (lit "description") tool) (fun present =>
  if present : bool
  then rbind (getitem tool (lit "description")) (fun d => Ok (negb (truthy d)))
  else Ok true).

(** The body of [for tool in result["tools"]]. *)
Definition check_tool (tool : pyobj) : M unit :=
  has_name <- lift (contains (lit "name") tool) ;;
  if negb has_name then
    append {| name := lit "Tool Schema"; passed := false;
              message := lit "Tool missing 'name' field";
              severity := error |}
    (* continue *)
  else
    nm <- lift (getitem tool (lit "name")) ;;
    missing <- lift (description_missing tool) ;;
    (if missing : bool then
       append {| name := lit "Tool '" ++ format nm ++ lit "' Description";
                 passed := false;
                 message := lit "Tool missing description";
                 severity := warning |}
     else ret tt) ;;
    has_schema <- lift (contains (lit "inputSchema") tool) ;;
    if has_schema : bool then
      schema <- lift (getitem tool (lit "inputSchema")) ;;
      ty <- lift (get schema (lit "type") PyNone) ;;
      if negb (eq_str ty (lit "object")) then
        append {| name := lit "Tool '" ++ format nm ++ lit "' Schema";
                  passed := false;
                  message := lit "inputSchema type should be 'object'";
                  severity := warning |}
      else ret tt
    else
      append {| name := lit "Tool '" ++ format nm ++ lit "' Schema";
                passed := true;
                message := lit "Tool has valid schema (no input required)";
                severity := info |}.

Definition _check_tool_schemas_body : M unit :=
  result <- _send_request (lit "tools/list") (PyDict []) ;;
  has_tools <- lift (and_contains result (lit "tools")) ;;
  if has_tools : bool then
    tools <- lift (getitem result (lit "tools")) ;;
    items <- lift (iter tools) ;;
    for_each items check_tool
  else ret tt.

Definition _check_tool_schemas_handler (e : exn) : M unit :=
  append {| name := lit "Tool Schemas"; passed := false;
            message := lit "Error checking schemas: " ++ exn_str env e;
            severity := error |}.

Definition _check_tool_schemas : M unit :=
  try_except _check_tool_schemas_body _check_tool_schemas_handler.

(** ** [_check_resources_list] *)

Definition _check_resources_list_body : M unit :=
  result <- _send_request (lit "resources/list") (PyDict []) ;;
  match result with
  | PyNone => ret tt
  | _ =>
      resources <- lift (get result (lit "resources") (PyList [])) ;;
      n <- lift (len resources) ;;
      append {| name := lit "Resources List"; passed := true;
                message := lit "Found " ++ str_of_nat n ++ lit " resource(s)";
                severity := info |}
  end.

(** Resources are optional, so this isn't necessarily an error. *)
Definition _check_resources_list_handler (e : exn) : M unit :=
  append {| name := lit "Resources List"; passed := true;
            message := lit "Resources not implemented (optional)";
            severity := info |}.

Definition _check_resources_list : M unit :=
  try_except _check_resources_list_body _check_resources_list_handler.

(** ** [evaluate] *)

Definition evaluate : M (list EvaluationResult) :=
  (fun s => (with_results s [], Ok tt)) ;;
  _check_server_starts ;;
  _check_tools_list ;;
  _check_tool_schemas ;;
  _check_resources_list ;;
  (fun s => (s, Ok (results s))).

(** ** [print_report] *)

Definition is_error (r : EvaluationResult) : bool :=
  str_eqb (severity r) error && negb (passed r).

Definition is_warning (r : EvaluationResult) : bool :=
  str_eqb (severity r) warning && negb (passed r).

Definition bullet (r : EvaluationResult) : str :=
  lit "   " ++ [8226%N] ++ lit " " ++ name r ++ lit ": " ++ message r.

(** One section of the report: printed only when the bucket is not empty. *)
Definition print_bucket (title : str) (bucket : list EvaluationResult) : M unit :=
  match bucket with
  | [] => ret tt
  | _ :: _ =>
      print title ;;
      for_each bucket (fun r => print (bullet r)) ;;
      print []
  end.

Definition print_report : M bool :=
  fun s0 =>
   (print ([newline] ++ repeat 61%N 60) ;;
    print (lit "MCP SERVER EVALUATION REPORT") ;;
    print (repeat 61%N 60 ++ [newline]) ;;
    let errors := filter is_error (results s0) in
    let warnings := filter is_warning (results s0) in
    let passed_ := filter passed (results s0) in
    print_bucket ([9989%N] ++ lit " PASSED:") passed_ ;;
    print_bucket ([9888; 65039]%N ++ lit "  WARNINGS:") warnings ;;
    print_bucket ([10060%N] ++ lit " ERRORS:") errors ;;
    print (repeat 45%N 60) ;;
    print (lit "Total: " ++ str_of_nat (List.length passed_) ++ lit " passed, "
           ++ str_of_nat (List.length warnings) ++ lit " warnings, "
           ++ str_of_nat (List.length errors) ++ lit " errors") ;;
    print (repeat 61%N 60) ;;
    ret (Nat.eqb (List.length errors) 0)) s0.

(** ** [main]

    [argv] is [sys.argv]; the result is the final state, whose [console] is
    what was printed, and the exit status of the process.  An exception
    that escapes ends the interpreter with status 1. *)
Definition main (argv : list str) : State * Z :=
  if (List.length argv <? 2)%nat then
    match (print (lit "Usage: python evaluation.py <server_command> [args...]") ;;
           print (lit "Example: python evaluation.py python my_server.py"))
            (MCPEvaluator []) with
    | (s, _) => (s, 1%Z)
    end
  else
    let evaluator := MCPEvaluator (tl argv) in
    match (evaluate ;; print_report) evaluator with
    | (s, Ok success) => (s, if success then 0%Z else 1%Z)
    | (s, Err _) => (s, 1%Z)
    end.

End Harness.

(** ** What each probe writes to its child *)

(** The input of the Server Startup probe: the [initialize] request. *)
Definition startup_input (env : Env) : str :=
  dumps env init_request ++ [newline].

(** The input [_send_request] writes: [initialize], then the request with
    id 2. *)
Definition request_input (env : Env) (method : str) (params : pyobj) : str :=
  dumps env init_request ++ [newline]
  ++ dumps env (PyDict [ (lit "jsonrpc", PyStr (lit "2.0"));
                         (lit "id", PyInt 2);
                         (lit "method", PyStr method);
                         (lit "params", params) ])
  ++ [newline].

(** ** Classification of output lines and of results *)

(** [d.get("id")] and [d.get("result")] on a parsed object. *)
Definition member (d : dict) (key : str) : pyobj :=
  match dict_lookup d key with
  | Some v => v
  | None => PyNone
  end.





(** The only results the report counts as errors. *)
Definition hard_failure (r : EvaluationResult) : Prop :=
  severity r = error /\ passed r = false.

(** [passed == (severity == "info")], with one of the three severities. *)
Definition well_classified (r : EvaluationResult) : Prop :=
  passed r = str_eqb (severity r) info
  /\ (severity r = info \/ severity r = warning \/ severity r = error).

(** The number of report buckets (passed, warnings, errors) holding [r]. *)
Definition buckets_holding (r : EvaluationResult) : nat :=
  (if passed r then 1 else 0) + (if is_warning r then 1 else 0)
  + (if is_error r then 1 else 0).

(** What [print_report] returns for a list of results. *)
Definition overall_success (rs : list EvaluationResult) : bool :=
  Nat.eqb (List.length (filter is_error rs)) 0.


(** ** The results the probes can append *)

Definition startup_ok : EvaluationResult :=
  {| name := lit "Server Startup"; passed := true;
     message := lit "Server starts successfully"; severity := info |}.

Definition startup_failed (stderr_text : str) : EvaluationResult :=
  {| name := lit "Server Startup"; passed := false;
     message := lit "Server failed to start: " ++ stderr_text;
     severity := error |}.

Definition startup_timed_out : EvaluationResult :=
  {| name := lit "Server Startup"; passed := false;
     message := lit "Server startup timed out"; severity := error |}.

Definition tools_found (n : nat) : EvaluationResult :=
  {| name := lit "Tools List"; passed := true;
     message := lit "Found " ++ str_of_nat n ++ lit " tool(s)";
     severity := info |}.

Definition tools_count_warning : EvaluationResult :=
  {| name := lit "Tools Count"; passed := false;
     message := lit "Server has no tools defined"; severity := warning |}.

Definition description_warning (env : Env) (nm : pyobj) : EvaluationResult :=
  {| name := lit "Tool '" ++ format env nm ++ lit "' Description";
     passed := false; message := lit "Tool missing description";
     severity := warning |}.

Definition schema_absent_ok (env : Env) (nm : pyobj) : EvaluationResult :=
  {| name := lit "Tool '" ++ format env nm ++ lit "' Schema";
     passed := true;
     message := lit "Tool has valid schema (no input required)";
     severity := info |}.

Definition resources_found (n : nat) : EvaluationResult :=
  {| name := lit "Resources List"; passed := true;
     message := lit "Found " ++ str_of_nat n ++ lit " resource(s)";
     severity := info |}.

Definition resources_optional : EvaluationResult :=
  {| name := lit "Resources List"; passed := true;
     message := lit "Resources not implemented (optional)";
     severity := info |}.

(** ** Example servers *)

(** [js] and [unlines] for output bytes. *)
Definition bjs (s : string) : bytes :=
  map (fun b => if N.eqb (Byte.to_N b) 39 then x22 else b) (blit s).

Definition blines (ls : list bytes) : bytes :=
  List.concat (map (fun l => l ++ [x0a]) ls).

(** An environment with fixed wording for exceptions and objects. *)
Definition plain_wording (cmd_spawn : list str -> nat -> option exn)
    (cmd_serve : list str -> nat -> str -> exchange) : Env :=
  {| spawn := cmd_spawn; serve := cmd_serve;
     exn_str := fun _ => lit "(exception text)";
     obj_repr := fun _ => lit "(object)" |}.

Definition initialize_response : bytes :=
  bjs "{'jsonrpc':'2.0','id':1,'result':{'protocolVersion':'2024-11-05','capabilities':{},'serverInfo':{'name':'demo','version':'0.1'}}}".

(** A server that answers [initialize], answers [tools/list] with the given
    result, rejects every other method with a JSON-RPC error, and exits with
    status 0 at the end of its input. *)
Definition demo_server (tools_result : bytes) : Env :=
  plain_wording
    (fun _ _ => None)
    (fun _ _ input =>
       let second :=
         if str_contains (js "'method': 'tools/list'") input
         then [bjs "{'jsonrpc':'2.0','id':2,'result':" ++ tools_result ++ bjs "}"]
         else if str_contains (js "'id': 2") input
         then [bjs "{'jsonrpc':'2.0','id':2,'error':{'code':-32601,'message':'Method not found'}}"]
         else [] in
       Completes 0 (blines (initialize_response :: second)) []).

Definition no_tools_server : Env := demo_server (bjs "{'tools':[]}").

Definition echo_server : Env := demo_server (bjs "{'tools':[{'name':'echo'}]}").

(** A server that reads its input, writes nothing and never exits. *)
Definition hanging_server : Env :=
  plain_wording (fun _ _ => None) (fun _ _ _ => TimesOut).

(** A command that cannot be launched. *)
Definition missing_server : Env :=
  plain_wording (fun _ _ => Some (OSError 2)) (fun _ _ _ => TimesOut).

(** A server that prints a diagnostic on standard error and exits with 3. *)
Definition crashing_server : Env :=
  plain_wording (fun _ _ => None)
    (fun _ _ _ => Completes 3 [] (blit "ImportError: no module named mcp")).

(** A server that answers every input with the given output and exits
    with status 0. *)
Definition fixed_output_server (out : bytes) : Env :=
  plain_wording (fun _ _ => None) (fun _ _ _ => Completes 0 out []).

Definition demo_argv : list str :=
  [lit "evaluation.py"; lit "python"; lit "my_server.py"].

(** An answer to the request with id 2, in single-quote notation. *)
Definition answer_line : string := "{'id':2,'result':{'tools':[]}}".



(** ** Properties of computations *)

(** [m] only appends to the result list, and every result it appends
    satisfies [P]. *)
Definition extends (P : EvaluationResult -> Prop) {A} (m : M A) : Prop :=
  forall s, exists app,
    results (fst (m s)) = results s ++ app /\ Forall P app.

(** [m] never raises. *)
Definition returns {A} (m : M A) : Prop :=
  forall s, exists s' a, m s = (s', Ok a).

(** [m] launches no child and leaves the command alone. *)
Definition keeps {A} (m : M A) : Prop :=
  forall s,
    server_command (fst (m s)) = server_command s
    /\ List.length (children (fst (m s))) = List.length (children s).

(** [m] launches exactly one child. *)
Definition launches_one {A} (m : M A) : Prop :=
  forall s,
    server_command (fst (m s)) = server_command s
    /\ List.length (children (fst (m s))) = S (List.length (children s)).

(** [m] only prints, and returns [a]. *)
Definition prints {A} (m : M A) (a : A) : Prop :=
  forall s, exists out, m s = (with_console s out, Ok a).

(** A probe contains the exceptions of its body: it never raises, and when
    the body raises, the probe appends exactly one result to what the body
    had appended by then, and returns. *)
Definition contains_exceptions (probe body : M unit) : Prop :=
  returns probe
  /\ forall s s' e,
       body s = (s', Err e) ->
       exists r, probe s = (with_results s' (results s' ++ [r]), Ok tt).

(** ** Further results and notions used by the properties below *)

Definition startup_error (env : Env) (e : exn) : EvaluationResult :=
  {| name := lit "Server Startup"; passed := false;
     message := lit "Error starting server: " ++ exn_str env e;
     severity := error |}.

Definition tools_invalid : EvaluationResult :=
  {| name := lit "Tools List"; passed := false;
     message := lit "Invalid tools/list response"; severity := error |}.

Definition tools_error (env : Env) (e : exn) : EvaluationResult :=
  {| name := lit "Tools List"; passed := false;
     message := lit "Error listing tools: " ++ exn_str env e;
     severity := error |}.

Definition tool_nameless : EvaluationResult :=
  {| name := lit "Tool Schema"; passed := false;
     message := lit "Tool missing 'name' field"; severity := error |}.

Definition schema_type_warning (env : Env) (nm : pyobj) : EvaluationResult :=
  {| name := lit "Tool '" ++ format env nm ++ lit "' Schema";
     passed := false;
     message := lit "inputSchema type should be 'object'";
     severity := warning |}.

Definition schemas_error (env : Env) (e : exn) : EvaluationResult :=
  {| name := lit "Tool Schemas"; passed := false;
     message := lit "Error checking schemas: " ++ exn_str env e;
     severity := error |}.


(** The input of [_send_request] for the two methods the probes use. *)
Definition tools_input (env : Env) : str :=
  request_input env (lit "tools/list") (PyDict []).

Definition resources_input (env : Env) : str :=
  request_input env (lit "resources/list") (PyDict []).


(** The two lines [main] prints when no server command is given. *)
Definition usage_text : str :=
  lit "Usage: python evaluation.py <server_command> [args...]" ++ [newline]
  ++ lit "Example: python evaluation.py python my_server.py" ++ [newline].






(** * Properties *)

(** ** Text *)

Lemma str_eqb_refl (a : str) : str_eqb a a = true.
Proof.
  induction a as [|x a IH]; simpl; [reflexivity|].
  now rewrite N.eqb_refl, IH.
Qed.

Lemma str_eqb_eq (a b : str) : str_eqb a b = true <-> a = b.
Proof.
  split.
  - revert b; induction a as [|x a IH]; intros [|y b] H; simpl in H;
      try discriminate; [reflexivity|].
    apply andb_true_iff in H as [Hx Hr].
    apply N.eqb_eq in Hx. apply IH in Hr. now subst.
  - intros ->. apply str_eqb_refl.
Qed.





(** ** The response loop of [_send_request] *)















(** ** Reasoning about computations *)


Section Computations.

Variable env : Env.
Variable P : EvaluationResult -> Prop.

Lemma extends_nothing {A} (m : M A) :
  (forall s, results (fst (m s)) = results s) -> extends P m.
Proof.
  intros H s. exists []. rewrite app_nil_r. split; [apply H | constructor].
Qed.

Lemma extends_ret {A} (a : A) : extends P (ret a).
Proof. now apply extends_nothing. Qed.

Lemma extends_lift {A} (r : res A) : extends P (lift r).
Proof. now apply extends_nothing. Qed.

Lemma extends_append (r : EvaluationResult) : P r -> extends P (append r).
Proof.
  intros Hr s. exists [r]. split; [reflexivity | now constructor].
Qed.

Lemma extends_bind {A B} (m : M A) (k : A -> M B) :
  extends P m -> (forall a, extends P (k a)) -> extends P (bind m k).
Proof.
  intros Hm Hk s. unfold bind.
  destruct (Hm s) as (app1 & E1 & F1).
  destruct (m s) as [s' [a|e]]; cbn [fst] in E1.
  - destruct (Hk a s') as (app2 & E2 & F2).
    exists (app1 ++ app2). split.
    + now rewrite E2, E1, app_assoc.
    + now apply Forall_app.
  - exists app1. now split.
Qed.

Lemma extends_try {A} (m : M A) (h : exn -> M A) :
  extends P m -> (forall e, extends P (h e)) -> extends P (try_except m h).
Proof.
  intros Hm Hh s. unfold try_except.
  destruct (Hm s) as (app1 & E1 & F1).
  destruct (m s) as [s' [a|e]]; cbn [fst] in E1.
  - exists app1. now split.
  - destruct (Hh e s') as (app2 & E2 & F2).
    exists (app1 ++ app2). split.
    + now rewrite E2, E1, app_assoc.
    + now apply Forall_app.
Qed.

Lemma extends_for_each {A} (items : list A) (body : A -> M unit) :
  (forall x, extends P (body x)) -> extends P (for_each items body).
Proof.
  intros Hb. induction items as [|x items IH]; cbn [for_each].
  - apply extends_ret.
  - apply extends_bind; auto.
Qed.

Lemma extends_create_subprocess_exec : extends P (create_subprocess_exec env).
Proof.
  apply extends_nothing. intros s. unfold create_subprocess_exec.
  destruct (spawn env _ _); reflexivity.
Qed.

Lemma extends_wait_for_communicate (process : nat) (data : str) :
  extends P (wait_for_communicate env process data).
Proof.
  apply extends_nothing. intros s. unfold wait_for_communicate.
  destruct (serve env _ _ _); reflexivity.
Qed.

Lemma extends_returncode (process : nat) : extends P (returncode process).
Proof. now apply extends_nothing. Qed.

Lemma extends_send_request (method : str) (params : pyobj) :
  extends P (_send_request env method params).
Proof.
  unfold _send_request.
  apply extends_bind; [apply extends_create_subprocess_exec | intros pid].
  apply extends_bind; [apply extends_wait_for_communicate | intros io].
  apply extends_lift.
Qed.

Lemma returns_ret {A} (a : A) : returns (ret a).
Proof. intros s. now exists s, a. Qed.

Lemma returns_append (r : EvaluationResult) : returns (append r).
Proof. intros s. now eexists _, tt. Qed.

Lemma returns_bind {A B} (m : M A) (k : A -> M B) :
  returns m -> (forall a, returns (k a)) -> returns (bind m k).
Proof.
  intros Hm Hk s. unfold bind.
  destruct (Hm s) as (s' & a & ->). apply Hk.
Qed.

Lemma returns_try {A} (m : M A) (h : exn -> M A) :
  (forall e, returns (h e)) -> returns (try_except m h).
Proof.
  intros Hh s. unfold try_except.
  destruct (m s) as [s' [a|e]]; [now exists s', a | apply Hh].
Qed.

Lemma keeps_same {A} (m : M A) :
  (forall s, server_command (fst (m s)) = server_command s
             /\ children (fst (m s)) = children s) ->
  keeps m.
Proof.
  intros H s. destruct (H s) as [Hc Hk]. now rewrite Hc, Hk.
Qed.

Lemma keeps_ret {A} (a : A) : keeps (ret a).
Proof. now apply keeps_same. Qed.

Lemma keeps_lift {A} (r : res A) : keeps (lift r).
Proof. now apply keeps_same. Qed.

Lemma keeps_append (r : EvaluationResult) : keeps (append r).
Proof. now apply keeps_same. Qed.

Lemma keeps_returncode (process : nat) : keeps (returncode process).
Proof. now apply keeps_same. Qed.

Lemma length_replace_nth {A} (n : nat) (x : A) (l : list A) :
  List.length (replace_nth n x l) = List.length l.
Proof.
  unfold replace_nth.
  rewrite <- (firstn_skipn n l) at 3.
  rewrite !length_app. f_equal.
  destruct (skipn n l); reflexivity.
Qed.

Lemma keeps_wait_for_communicate (process : nat) (data : str) :
  keeps (wait_for_communicate env process data).
Proof.
  intros s. unfold wait_for_communicate.
  destruct (serve env _ _ _); cbn; auto using length_replace_nth.
Qed.

Lemma keeps_bind {A B} (m : M A) (k : A -> M B) :
  keeps m -> (forall a, keeps (k a)) -> keeps (bind m k).
Proof.
  intros Hm Hk s. unfold bind.
  destruct (Hm s) as [C1 L1].
  destruct (m s) as [s' [a|e]]; cbn [fst] in *; [|now split].
  destruct (Hk a s') as [C2 L2]. split; congruence.
Qed.

Lemma keeps_try {A} (m : M A) (h : exn -> M A) :
  keeps m -> (forall e, keeps (h e)) -> keeps (try_except m h).
Proof.
  intros Hm Hh s. unfold try_except.
  destruct (Hm s) as [C1 L1].
  destruct (m s) as [s' [a|e]]; cbn [fst] in *; [now split|].
  destruct (Hh e s') as [C2 L2]. split; congruence.
Qed.

Lemma keeps_for_each {A} (items : list A) (body : A -> M unit) :
  (forall x, keeps (body x)) -> keeps (for_each items body).
Proof.
  intros Hb. induction items as [|x items IH]; cbn [for_each].
  - apply keeps_ret.
  - apply keeps_bind; auto.
Qed.

Lemma launches_one_spawn_then {A} (k : nat -> M A) :
  (forall pid, keeps (k pid)) -> launches_one (bind (create_subprocess_exec env) k).
Proof.
  intros Hk s. unfold bind, create_subprocess_exec.
  destruct (spawn env _ _).
  - cbn. rewrite length_app, Nat.add_comm. now split.
  - match goal with |- context [k ?p ?t] => destruct (Hk p t) as [C L] end.
    rewrite C, L. cbn. rewrite length_app, Nat.add_comm. now split.
Qed.

Lemma launches_one_try {A} (m : M A) (h : exn -> M A) :
  launches_one m -> (forall e, keeps (h e)) -> launches_one (try_except m h).
Proof.
  intros Hm Hh s. unfold try_except.
  destruct (Hm s) as [C1 L1].
  destruct (m s) as [s' [a|e]]; cbn [fst] in *; [now split|].
  destruct (Hh e s') as [C2 L2]. split; congruence.
Qed.

End Computations.

(** One step of a proof that a computation of the script has one of the
    three properties: peel a [bind], or split on the scrutinee of a
    conditional. *)
Ltac walk :=
  repeat first
    [ apply extends_ret | apply extends_lift | apply extends_returncode
    | apply extends_create_subprocess_exec
    | apply extends_wait_for_communicate | apply extends_send_request
    | apply keeps_ret | apply keeps_lift | apply keeps_returncode
    | apply keeps_append | apply keeps_wait_for_communicate
    | apply extends_bind; [|intros ?]
    | apply keeps_bind; [|intros ?]
    | apply extends_for_each; intros ?
    | apply keeps_for_each; intros ?
    | match goal with
      | |- extends _ (if ?b then _ else _) => destruct b
      | |- keeps (if ?b then _ else _) => destruct b
      | |- extends _ (match ?x with _ => _ end) => destruct x
      | |- keeps (match ?x with _ => _ end) => destruct x
      end ].

(** ** The probes: what they append, that they return, what they launch *)

Ltac classified :=
  split;
  [ reflexivity
  | first [ left; reflexivity
          | right; left; reflexivity
          | right; right; reflexivity ] ].

Ltac appended_classified :=
  walk; apply extends_append; classified.

Section Probes.

Variable env : Env.

Lemma server_starts_well_classified :
  extends well_classified (_check_server_starts env).
Proof.
  apply extends_try.
  - unfold _check_server_starts_body. appended_classified.
  - intros e. unfold _check_server_starts_handler. appended_classified.
Qed.

Lemma tools_list_well_classified :
  extends well_classified (_check_tools_list env).
Proof.
  apply extends_try.
  - unfold _check_tools_list_body. appended_classified.
  - intros e. unfold _check_tools_list_handler. appended_classified.
Qed.

Lemma check_tool_well_classified (tool : pyobj) :
  extends well_classified (check_tool env tool).
Proof. unfold check_tool. appended_classified. Qed.

Lemma tool_schemas_well_classified :
  extends well_classified (_check_tool_schemas env).
Proof.
  apply extends_try.
  - unfold _check_tool_schemas_body. appended_classified.
  - intros e. unfold _check_tool_schemas_handler. appended_classified.
Qed.

Lemma resources_list_well_classified :
  extends well_classified (_check_resources_list env).
Proof.
  apply extends_try.
  - unfold _check_resources_list_body. appended_classified.
  - intros e. unfold _check_resources_list_handler. appended_classified.
Qed.

Lemma server_starts_returns : returns (_check_server_starts env).
Proof.
  apply returns_try. intros e. unfold _check_server_starts_handler.
  destruct (is_TimeoutError e); apply returns_append.
Qed.

Lemma tools_list_returns : returns (_check_tools_list env).
Proof. apply returns_try. intros e. apply returns_append. Qed.

Lemma tool_schemas_returns : returns (_check_tool_schemas env).
Proof. apply returns_try. intros e. apply returns_append. Qed.

Lemma resources_list_returns : returns (_check_resources_list env).
Proof. apply returns_try. intros e. apply returns_append. Qed.

Lemma keeps_check_tool (tool : pyobj) : keeps (check_tool env tool).
Proof. unfold check_tool. walk. Qed.

Lemma server_starts_launches_one : launches_one (_check_server_starts env).
Proof.
  apply launches_one_try.
  - unfold _check_server_starts_body. apply launches_one_spawn_then.
    intros pid. walk.
  - intros e. unfold _check_server_starts_handler. walk.
Qed.

Lemma send_request_launches_then {A} (method : str) (params : pyobj)
    (k : pyobj -> M A) :
  (forall r, keeps (k r)) ->
  launches_one (bind (_send_request env method params) k).
Proof.
  intros Hk s.
  assert (L : launches_one
                (bind (create_subprocess_exec env) (fun process =>
                 bind (bind (wait_for_communicate env process
                               (request_input env method params))
                            (fun io => lift (parse_responses (fst io)))) k))).
  { apply launches_one_spawn_then. intros pid. walk. apply Hk. }
  specialize (L s). revert L.
  unfold _send_request, request_input, bind, create_subprocess_exec.
  destruct (spawn env _ _); [auto|].
  destruct (wait_for_communicate _ _ _ _) as [s1 [io|e]]; auto.
Qed.

Lemma tools_list_launches_one : launches_one (_check_tools_list env).
Proof.
  apply launches_one_try.
  - unfold _check_tools_list_body. apply send_request_launches_then.
    intros r. walk.
  - intros e. unfold _check_tools_list_handler. walk.
Qed.

Lemma tool_schemas_launches_one : launches_one (_check_tool_schemas env).
Proof.
  apply launches_one_try.
  - unfold _check_tool_schemas_body. apply send_request_launches_then.
    intros r. walk.
  - intros e. unfold _check_tool_schemas_handler. walk.
Qed.

Lemma resources_list_launches_one : launches_one (_check_resources_list env).
Proof.
  apply launches_one_try.
  - unfold _check_resources_list_body. apply send_request_launches_then.
    intros r. walk.
  - intros e. unfold _check_resources_list_handler. walk.
Qed.

(** [evaluate] is the four probes in their order, each returning, followed
    by the result list they leave. *)
Lemma evaluate_unfolds (s : State) :
  exists s1 s2 s3 s4,
    _check_server_starts env (with_results s []) = (s1, Ok tt)
    /\ _check_tools_list env s1 = (s2, Ok tt)
    /\ _check_tool_schemas env s2 = (s3, Ok tt)
    /\ _check_resources_list env s3 = (s4, Ok tt)
    /\ evaluate env s = (s4, Ok (results s4)).
Proof.
  destruct (server_starts_returns (with_results s [])) as (s1 & [] & E1).
  destruct (tools_list_returns s1) as (s2 & [] & E2).
  destruct (tool_schemas_returns s2) as (s3 & [] & E3).
  destruct (resources_list_returns s3) as (s4 & [] & E4).
  exists s1, s2, s3, s4. repeat split; try assumption.
  unfold evaluate, bind. now rewrite E1, E2, E3, E4.
Qed.

End Probes.

(** ** The report *)


Section Report.

Variable env : Env.

Lemma prints_print (line : str) : prints (print line) tt.
Proof. intros s. eexists. reflexivity. Qed.

Lemma prints_ret {A} (a : A) : prints (ret a) a.
Proof. intros s. exists (console s). now destruct s. Qed.

Lemma prints_bind {A B} (m : M A) (k : A -> M B) (a : A) (b : B) :
  prints m a -> prints (k a) b -> prints (bind m k) b.
Proof.
  intros Hm Hk s. unfold bind.
  destruct (Hm s) as (o1 & ->).
  destruct (Hk (with_console s o1)) as (o2 & ->).
  now exists o2.
Qed.

Lemma prints_for_each {A} (items : list A) (line : A -> str) :
  prints (for_each items (fun r => print (line r))) tt.
Proof.
  induction items as [|x items IH]; cbn [for_each].
  - apply prints_ret.
  - eapply prints_bind; [apply prints_print | exact IH].
Qed.

Lemma prints_print_bucket (title : str) (bucket : list EvaluationResult) :
  prints (print_bucket title bucket) tt.
Proof.
  destruct bucket as [|r bucket]; cbn [print_bucket].
  - apply prints_ret.
  - eapply prints_bind; [apply prints_print|].
    eapply prints_bind; [apply prints_for_each|].
    apply prints_print.
Qed.

Lemma print_report_returns (s : State) :
  exists out,
    print_report s = (with_console s out, Ok (overall_success (results s))).
Proof.
  unfold print_report, overall_success.
  repeat (eapply prints_bind;
          [ first [apply prints_print | apply prints_print_bucket] |]).
  apply prints_ret.
Qed.

Lemma is_error_hard_failure (r : EvaluationResult) :
  is_error r = true <-> hard_failure r.
Proof.
  unfold is_error, hard_failure.
  rewrite andb_true_iff, str_eqb_eq, negb_true_iff. reflexivity.
Qed.

Lemma overall_success_iff (rs : list EvaluationResult) :
  overall_success rs = true <-> forall r, In r rs -> ~ hard_failure r.
Proof.
  unfold overall_success. rewrite Nat.eqb_eq, length_zero_iff_nil.
  split.
  - intros Hnil r Hin Hr.
    assert (Hf : In r (filter is_error rs))
      by (apply filter_In; split; [assumption | now apply is_error_hard_failure]).
    rewrite Hnil in Hf. destruct Hf.
  - intros Hall. induction rs as [|r rs IH]; [reflexivity|].
    cbn [filter]. destruct (is_error r) eqn:E.
    + exfalso. apply (Hall r); [now left | now apply is_error_hard_failure].
    + apply IH. intros r' Hin. apply Hall. now right.
Qed.



Lemma main_runs (argv : list str) :
  (2 <= List.length argv)%nat ->
  exists s out,
    evaluate env (MCPEvaluator (tl argv)) = (s, Ok (results s))
    /\ main env argv
       = (with_console s out, if overall_success (results s) then 0%Z else 1%Z).
Proof.
  intros Hlen. unfold main.
  destruct (Nat.ltb_spec (List.length argv) 2) as [Hlt|_]; [lia|].
  destruct (evaluate_unfolds env (MCPEvaluator (tl argv)))
    as (s1 & s2 & s3 & s4 & _ & _ & _ & _ & E).
  destruct (print_report_returns s4) as (out & Hp).
  exists s4, out. split; [assumption|].
  unfold bind. now rewrite E, Hp.
Qed.

End Report.



(** ** Containment of exceptions *)


Lemma try_except_append (body : M unit) (h : exn -> EvaluationResult) :
  contains_exceptions (try_except body (fun e => append (h e))) body.
Proof.
  split.
  - apply returns_try. intros e. apply returns_append.
  - intros s s' e H. exists (h e). unfold try_except. now rewrite H.
Qed.

(** [evaluate] runs the four probes in order; each returns, appends to the
    list and launches one child; the value returned is the list at the
    end. *)
Lemma evaluate_accumulates (env : Env) (s : State) :
  exists s1 s2 s3 s4 a1 a2 a3 a4,
    _check_server_starts env (with_results s []) = (s1, Ok tt)
    /\ _check_tools_list env s1 = (s2, Ok tt)
    /\ _check_tool_schemas env s2 = (s3, Ok tt)
    /\ _check_resources_list env s3 = (s4, Ok tt)
    /\ results s1 = a1
    /\ results s2 = a1 ++ a2
    /\ results s3 = a1 ++ a2 ++ a3
    /\ results s4 = a1 ++ a2 ++ a3 ++ a4
    /\ List.length (children s4) = (List.length (children s) + 4)%nat
    /\ evaluate env s = (s4, Ok (a1 ++ a2 ++ a3 ++ a4)).
Proof.
  destruct (evaluate_unfolds env s) as (s1 & s2 & s3 & s4 & E1 & E2 & E3 & E4 & E).
  destruct (server_starts_well_classified env (with_results s [])) as (a1 & R1 & _).
  destruct (tools_list_well_classified env s1) as (a2 & R2 & _).
  destruct (tool_schemas_well_classified env s2) as (a3 & R3 & _).
  destruct (resources_list_well_classified env s3) as (a4 & R4 & _).
  destruct (server_starts_launches_one env (with_results s [])) as [_ L1].
  destruct (tools_list_launches_one env s1) as [_ L2].
  destruct (tool_schemas_launches_one env s2) as [_ L3].
  destruct (resources_list_launches_one env s3) as [_ L4].
  rewrite E1 in R1, L1. rewrite E2 in R2, L2.
  rewrite E3 in R3, L3. rewrite E4 in R4, L4.
  cbn [fst with_results results children] in *.
  exists s1, s2, s3, s4, a1, a2, a3, a4.
  repeat split; try assumption.
  - now rewrite R2, R1.
  - now rewrite R3, R2, R1, <- app_assoc.
  - now rewrite R4, R3, R2, R1, <- !app_assoc.
  - lia.
  - now rewrite E, R4, R3, R2, R1, <- !app_assoc.
Qed.

(** C3.  Each of the four probes catches every exception its transport and
    parsing work raises and turns it into exactly one appended result, and
    never raises itself; so [evaluate] runs the four probes in order, each
    launching its child and returning, and returns the list they have
    accumulated. *)
Theorem probes_contain_their_exceptions (env : Env) :
  contains_exceptions (_check_server_starts env) (_check_server_starts_body env)
  /\ contains_exceptions (_check_tools_list env) (_check_tools_list_body env)
  /\ contains_exceptions (_check_tool_schemas env) (_check_tool_schemas_body env)
  /\ contains_exceptions (_check_resources_list env)
       (_check_resources_list_body env)
  /\ forall s : State,
       exists s1 s2 s3 s4 a1 a2 a3 a4,
         _check_server_starts env (with_results s []) = (s1, Ok tt)
         /\ _check_tools_list env s1 = (s2, Ok tt)
         /\ _check_tool_schemas env s2 = (s3, Ok tt)
         /\ _check_resources_list env s3 = (s4, Ok tt)
         /\ results s1 = a1
         /\ results s2 = a1 ++ a2
         /\ results s3 = a1 ++ a2 ++ a3
         /\ results s4 = a1 ++ a2 ++ a3 ++ a4
         /\ List.length (children s4) = (List.length (children s) + 4)%nat
         /\ evaluate env s = (s4, Ok (a1 ++ a2 ++ a3 ++ a4)).
Proof.
  split; [|split; [|split; [|split]]].
  - split; [apply server_starts_returns|].
    intros s s' e H. unfold _check_server_starts, try_except. rewrite H.
    unfold _check_server_starts_handler.
    destruct (is_TimeoutError e); eexists; reflexivity.
  - apply (try_except_append _ (fun e => _)).
  - apply (try_except_append _ (fun e => _)).
  - apply (try_except_append _ (fun e => _)).
  - intros s. apply evaluate_accumulates.
Qed.

(** A command that cannot be launched: every probe turns the launch error
    into its one result, and the run returns all four. *)
Lemma probes_contain_their_exceptions_witness :
  let s := MCPEvaluator [lit "nowhere"] in
  let s' := with_children s [NotStarted] in
  exists r,
    _check_tools_list missing_server s
    = (with_results s' (results s' ++ [r]), Ok tt).
Proof.
  intros s s'.
  apply (proj2 (proj1 (proj2 (probes_contain_their_exceptions missing_server)))
           s s' (OSError 2)).
  vm_compute; reflexivity.
Defined.

(** ** Severity and outcome *)

Lemma well_classified_one_bucket (r : EvaluationResult) :
  well_classified r -> buckets_holding r = 1%nat.
Proof.
  destruct r as [n p m sv]. unfold well_classified, buckets_holding,
    is_warning, is_error. cbn [passed severity].
  intros [-> [-> | [-> | ->]]]; reflexivity.
Qed.

(** C10.  Every result a probe appends has [passed == (severity == "info")]
    and one of the three severities, the result of the resources probe for
    a failed exchange included; so every result of a run is held by exactly
    one of the three buckets of the report. *)
Theorem results_are_well_classified (env : Env) :
  extends well_classified (_check_server_starts env)
  /\ extends well_classified (_check_tools_list env)
  /\ extends well_classified (_check_tool_schemas env)
  /\ extends well_classified (_check_resources_list env)
  /\ (forall s s' e,
        _check_resources_list_body env s = (s', Err e) ->
        results (fst (_check_resources_list env s))
          = results s' ++ [resources_optional]
        /\ well_classified resources_optional)
  /\ (forall s : State,
        Forall (fun r => well_classified r /\ buckets_holding r = 1%nat)
               (results (fst (evaluate env s)))).
Proof.
  split; [apply server_starts_well_classified|].
  split; [apply tools_list_well_classified|].
  split; [apply tool_schemas_well_classified|].
  split; [apply resources_list_well_classified|].
  split.
  - intros s s' e H. unfold _check_resources_list, try_except. rewrite H.
    split; [reflexivity | classified].
  - intros s.
    destruct (evaluate_unfolds env s) as (s1 & s2 & s3 & s4 & E1 & E2 & E3 & E4 & E).
    destruct (server_starts_well_classified env (with_results s [])) as (a1 & R1 & F1).
    destruct (tools_list_well_classified env s1) as (a2 & R2 & F2).
    destruct (tool_schemas_well_classified env s2) as (a3 & R3 & F3).
    destruct (resources_list_well_classified env s3) as (a4 & R4 & F4).
    rewrite E1 in R1. rewrite E2 in R2. rewrite E3 in R3. rewrite E4 in R4.
    rewrite E. cbn [fst with_results results] in *.
    rewrite R4, R3, R2, R1. cbn [app].
    assert (F : Forall well_classified (((a1 ++ a2) ++ a3) ++ a4))
      by (rewrite !Forall_app; tauto).
    revert F. apply Forall_impl. intros r Hr.
    split; [assumption | now apply well_classified_one_bucket].
Qed.

(** The resources probe against a server that never answers: the result it
    appends for the failed exchange is passed/info. *)
Lemma results_are_well_classified_witness :
  let s := MCPEvaluator [lit "srv"] in
  let s' := with_children s [Running] in
  results (fst (_check_resources_list hanging_server s))
    = results s' ++ [resources_optional]
  /\ well_classified resources_optional.
Proof.
  intros s s'.
  apply (proj1 (proj2 (proj2 (proj2 (proj2
           (results_are_well_classified hanging_server)))))
           s s' TimeoutError).
  reflexivity.
Defined.

(** ** Running the transport *)

Lemma replace_nth_last {A} (l : list A) (x y : A) :
  replace_nth (List.length l) x (l ++ [y]) = l ++ [x].
Proof.
  unfold replace_nth.
  rewrite firstn_app, firstn_all, Nat.sub_diag, skipn_app, skipn_all, Nat.sub_diag.
  cbn. now rewrite app_nil_r.
Qed.

Lemma nth_error_last {A} (l : list A) (x : A) :
  nth_error (l ++ [x]) (List.length l) = Some x.
Proof.
  rewrite nth_error_app2 by lia. now rewrite Nat.sub_diag.
Qed.

Ltac projections :=
  cbn [fst snd server_command children results console
       with_children with_results with_console].

Section Transport.

Variable env : Env.
Variable s : State.

Lemma startup_completes (rc : Z) (out err : bytes) :
  spawn env (server_command s) (List.length (children s)) = None ->
  serve env (server_command s) (List.length (children s)) (startup_input env)
    = Completes rc out err ->
  _check_server_starts env s =
    let s' := with_children s (children s ++ [Exited rc]) in
    if match rc with 0%Z => true | _ => false end
       || match out with [] => false | _ => true end
    then append startup_ok s'
    else match decode err with
         | Some text => append (startup_failed text) s'
         | None => _check_server_starts_handler env (UnicodeDecodeError err) s'
         end.
Proof.
  intros Hspawn Hserve. unfold startup_input in Hserve.
  unfold _check_server_starts, try_except, _check_server_starts_body.
  unfold bind at 1. unfold create_subprocess_exec. rewrite Hspawn.
  unfold bind at 1. unfold wait_for_communicate. projections. rewrite Hserve.
  rewrite replace_nth_last.
  unfold bind at 1. unfold returncode. projections. rewrite nth_error_last.
  cbv zeta. destruct (_ || _); [reflexivity|].
  unfold bind, lift, bytes_decode. destruct (decode err); reflexivity.
Qed.

Lemma startup_times_out :
  spawn env (server_command s) (List.length (children s)) = None ->
  serve env (server_command s) (List.length (children s)) (startup_input env)
    = TimesOut ->
  _check_server_starts env s
    = append startup_timed_out (with_children s (children s ++ [Running])).
Proof.
  intros Hspawn Hserve. unfold startup_input in Hserve.
  unfold _check_server_starts, try_except, _check_server_starts_body.
  unfold bind at 1. unfold create_subprocess_exec. rewrite Hspawn.
  unfold bind at 1. unfold wait_for_communicate. projections. rewrite Hserve.
  reflexivity.
Qed.

(** [_send_request], case by case. *)
Lemma send_request_runs (method : str) (params : pyobj) :
  _send_request env method params s =
    let after := fun c => with_children s (children s ++ [c]) in
    match spawn env (server_command s) (List.length (children s)) with
    | Some e => (after NotStarted, Err e)
    | None =>
        match serve env (server_command s) (List.length (children s))
                (request_input env method params) with
        | Completes rc out _ => (after (Exited rc), parse_responses out)
        | TimesOut => (after Running, Err TimeoutError)
        | Fails e => (after Running, Err e)
        end
    end.
Proof.
  unfold _send_request, request_input.
  unfold bind at 1. unfold create_subprocess_exec.
  destruct (spawn env _ _); [reflexivity|].
  unfold bind at 1. unfold wait_for_communicate. projections.
  destruct (serve env _ _ _); try reflexivity.
  rewrite replace_nth_last. reflexivity.
Qed.

End Transport.

(** ** Server Startup *)



(** ** Timeouts and the child *)




(** ** Tool Schemas *)

Lemma check_tool_bare_name (env : Env) (d : dict) (nm : pyobj) (s : State) :
  dict_lookup d (lit "name") = Some nm ->
  dict_lookup d (lit "description") = None ->
  dict_lookup d (lit "inputSchema") = None ->
  check_tool env (PyDict d) s
    = (with_results s
         (results s ++ [description_warning env nm; schema_absent_ok env nm]),
       Ok tt).
Proof.
  intros Hname Hdesc Hschema. unfold check_tool.
  unfold bind at 1. unfold lift at 1. unfold contains at 1. rewrite Hname.
  cbn [negb]. unfold bind at 1. unfold lift at 1. unfold getitem. rewrite Hname.
  unfold bind at 1. unfold lift at 1. unfold description_missing, contains at 1.
  rewrite Hdesc. cbn [rbind].
  unfold bind at 1. unfold append at 1.
  unfold bind at 1. unfold lift at 1. unfold contains. rewrite Hschema.
  unfold append. projections. now rewrite <- app_assoc.
Qed.

(** C7 (as amended).  For a tool entry that has a [name] but neither a
    [description] nor an [inputSchema], the Tool Schemas probe appends
    exactly two results: the failed/warning result for the missing
    description, and after it the passed/info result for the absent
    schema. *)
Theorem bare_tool_yields_warning_and_info (env : Env) (d : dict) (nm : pyobj) :
  dict_lookup d (lit "name") = Some nm ->
  dict_lookup d (lit "description") = None ->
  dict_lookup d (lit "inputSchema") = None ->
  (forall s : State,
      check_tool env (PyDict d) s
        = (with_results s
             (results s ++ [description_warning env nm; schema_absent_ok env nm]),
           Ok tt))
  /\ (forall (s : State) rc out err listing,
        spawn env (server_command s) (List.length (children s)) = None ->
        serve env (server_command s) (List.length (children s))
          (request_input env (lit "tools/list") (PyDict []))
          = Completes rc out err ->
        parse_responses out = Ok (PyDict listing) ->
        dict_lookup listing (lit "tools") = Some (PyList [PyDict d]) ->
        results (fst (_check_tool_schemas env s))
          = results s ++ [description_warning env nm; schema_absent_ok env nm])
  /\ passed (description_warning env nm) = false
  /\ severity (description_warning env nm) = warning
  /\ passed (schema_absent_ok env nm) = true
  /\ severity (schema_absent_ok env nm) = info.
Proof.
  intros Hname Hdesc Hschema.
  split; [|split; [|repeat split]].
  - intros s. now apply check_tool_bare_name.
  - intros s rc out err listing Hspawn Hserve Hparse Htools.
    unfold _check_tool_schemas, try_except, _check_tool_schemas_body.
    unfold bind at 1. rewrite send_request_runs, Hspawn, Hserve, Hparse.
    unfold bind at 1. unfold lift at 1. unfold and_contains.
    replace (truthy (PyDict listing)) with true
      by (destruct listing; [discriminate Htools | reflexivity]).
    unfold contains. rewrite Htools.
    unfold bind at 1. unfold lift at 1. unfold getitem. rewrite Htools.
    unfold bind at 1. unfold lift at 1. cbn [iter for_each].
    unfold bind at 1.
    rewrite (check_tool_bare_name env d nm _ Hname Hdesc Hschema).
    reflexivity.
Qed.

Lemma bare_tool_yields_warning_and_info_witness :
  check_tool echo_server (PyDict [(lit "name", PyStr (lit "echo"))])
    (MCPEvaluator [lit "srv"])
  = (with_results (MCPEvaluator [lit "srv"])
       ([] ++ [ description_warning echo_server (PyStr (lit "echo"));
                schema_absent_ok echo_server (PyStr (lit "echo")) ]),
     Ok tt).
Proof.
  apply (proj1 (bare_tool_yields_warning_and_info echo_server
                  [(lit "name", PyStr (lit "echo"))] (PyStr (lit "echo"))
                  eq_refl eq_refl eq_refl)).
Defined.

(** C7, counterexample.  A server whose only tool is [{"name": "echo"}]:
    the Tool Schemas probe appends two results, and the second one is a
    result for the absent schema. *)
Lemma bare_tool_gets_a_schema_result :
  parse_responses
    (blines [initialize_response;
             bjs "{'jsonrpc':'2.0','id':2,'result':{'tools':[{'name':'echo'}]}}"])
    = Ok (PyDict [(lit "tools", PyList [PyDict [(lit "name", PyStr (lit "echo"))]])])
  /\ results (fst (_check_tool_schemas echo_server (MCPEvaluator [lit "srv"])))
     = [ {| name := lit "Tool 'echo' Description"; passed := false;
            message := lit "Tool missing description"; severity := warning |};
         {| name := lit "Tool 'echo' Schema"; passed := true;
            message := lit "Tool has valid schema (no input required)";
            severity := info |} ]
  /\ List.length
       (results (fst (_check_tool_schemas echo_server (MCPEvaluator [lit "srv"]))))
     <> 1%nat.
Proof.
  split; [vm_compute; reflexivity|].
  split; [vm_compute; reflexivity|].
  vm_compute. discriminate.
Qed.

(** ** Tools List *)






(** ** Resources List *)

Lemma send_request_keeps_results (env : Env) (method : str) (params : pyobj)
    (s : State) :
  results (fst (_send_request env method params s)) = results s.
Proof.
  destruct (extends_send_request env (fun _ => False) method params s)
    as (app & E & F).
  destruct app as [|r app]; [now rewrite app_nil_r in E|].
  inversion F as [|? ? Hr _]. destruct Hr.
Qed.

(** The result of the resources exchange decides what the probe appends. *)
Lemma resources_list_runs (env : Env) (s : State) :
  results (fst (_check_resources_list env s)) =
    results s ++
    match snd (_send_request env (lit "resources/list") (PyDict []) s) with
    | Err _ => [resources_optional]
    | Ok PyNone => []
    | Ok result =>
        match rbind (get result (lit "resources") (PyList [])) len with
        | Ok n => [resources_found n]
        | Err _ => [resources_optional]
        end
    end.
Proof.
  pose proof (send_request_keeps_results env (lit "resources/list") (PyDict []) s)
    as Hres.
  unfold _check_resources_list, try_except, _check_resources_list_body.
  unfold bind at 1.
  destruct (_send_request env (lit "resources/list") (PyDict []) s)
    as [s1 [result|e]]; cbn [fst snd] in *; rewrite <- Hres;
    [|reflexivity].
  destruct result;
    try (cbn; now rewrite app_nil_r);
    try reflexivity.
  unfold bind, lift, get, rbind.
  destruct (len _); reflexivity.
Qed.

(** C6 (as amended).  The Resources List probe appends at most one result,
    and any result it appends is passed/info: the count of resources when
    the exchange returns a result other than [None] whose [resources] entry
    (an empty list by default) has a length; [Resources not implemented
    (optional)] when the exchange, or the reading of that result, raises;
    and nothing at all when the exchange returns [None], that is when no
    line answers the request or the answer has no [result].  The exchange
    raises when the launch fails, when the wait times out or fails, or when
    reading the output raises.  Whatever the probe appends, [print_report]
    returns what it would have returned without. *)
Theorem resources_probe_outcomes (env : Env) (s : State) :
  let exchange := snd (_send_request env (lit "resources/list") (PyDict []) s) in
  let appended := fun rs =>
    results (fst (_check_resources_list env s)) = results s ++ rs in
  exchange
    = match spawn env (server_command s) (List.length (children s)) with
      | Some e => Err e
      | None =>
          match serve env (server_command s) (List.length (children s))
                  (request_input env (lit "resources/list") (PyDict [])) with
          | Completes _ out _ => parse_responses out
          | TimesOut => Err TimeoutError
          | Fails e => Err e
          end
      end
  /\ (forall e, exchange = Err e -> appended [resources_optional])
  /\ (exchange = Ok PyNone -> appended [])
  /\ (forall result n,
        exchange = Ok result -> result <> PyNone ->
        rbind (get result (lit "resources") (PyList [])) len = Ok n ->
        appended [resources_found n])
  /\ (forall result e,
        exchange = Ok result -> result <> PyNone ->
        rbind (get result (lit "resources") (PyList [])) len = Err e ->
        appended [resources_optional])
  /\ (exists rs,
        appended rs /\ (List.length rs <= 1)%nat
        /\ Forall (fun r => passed r = true /\ severity r = info) rs)
  /\ snd (print_report (fst (_check_resources_list env s)))
     = snd (print_report s).
Proof.
  intros exchange appended. subst appended.
  pose proof (resources_list_runs env s) as Hrun. fold exchange in Hrun.
  assert (Hshape : exists rs,
             results (fst (_check_resources_list env s)) = results s ++ rs
             /\ (List.length rs <= 1)%nat
             /\ Forall (fun r => passed r = true /\ severity r = info) rs).
  { eexists. split; [exact Hrun|].
    destruct exchange as [result|e];
      [destruct result; try destruct (rbind _ _)|];
      cbn [List.length]; split; try lia; repeat constructor. }
  repeat match goal with |- _ /\ _ => split end.
  - subst exchange. rewrite send_request_runs.
    destruct (spawn env _ _); [reflexivity|].
    destruct (serve env _ _ _); reflexivity.
  - intros e He. now rewrite Hrun, He.
  - intros He. now rewrite Hrun, He.
  - intros result n He Hn Hlen. rewrite Hrun, He.
    destruct result; try congruence; now rewrite Hlen.
  - intros result e He Hn Hlen. rewrite Hrun, He.
    destruct result; try congruence; now rewrite Hlen.
  - exact Hshape.
  - destruct Hshape as (rs & E & _ & F).
    destruct (print_report_returns (fst (_check_resources_list env s)))
      as (o1 & ->).
    destruct (print_report_returns s) as (o2 & ->).
    cbn [snd]. f_equal. rewrite E. unfold overall_success.
    rewrite filter_app.
    replace (filter is_error rs) with (@nil EvaluationResult);
      [now rewrite app_nil_r|].
    clear E. induction F as [|r rs [Hp _] _ IH]; [reflexivity|].
    cbn [filter]. unfold is_error at 1. rewrite Hp, andb_false_r. exact IH.
Qed.

Lemma resources_probe_outcomes_witness :
  results (fst (_check_resources_list hanging_server (MCPEvaluator [lit "srv"])))
    = [] ++ [resources_optional]
  /\ results (fst (_check_resources_list
                     (fixed_output_server
                        (blines [bjs "{'jsonrpc':'2.0','id':2,'result':{}}"]))
                     (MCPEvaluator [lit "srv"])))
     = [] ++ [resources_found 0].
Proof.
  split.
  - apply (proj1 (proj2 (resources_probe_outcomes hanging_server
                           (MCPEvaluator [lit "srv"]))) TimeoutError).
    reflexivity.
  - apply (proj1 (proj2 (proj2 (proj2 (resources_probe_outcomes
                                  (fixed_output_server
                                     (blines [bjs "{'jsonrpc':'2.0','id':2,'result':{}}"]))
                                  (MCPEvaluator [lit "srv"])))))
             (PyDict []) 0%nat).
    + vm_compute; reflexivity.
    + discriminate.
    + reflexivity.
Defined.

(** C6, counterexample.  A server that rejects [resources/list] with a
    JSON-RPC error, and a server that writes nothing: the exchange returns
    [None] and the probe appends no result at all. *)
Lemma resources_probe_can_append_nothing :
  snd (_send_request no_tools_server (lit "resources/list") (PyDict [])
         (MCPEvaluator [lit "srv"])) = Ok PyNone
  /\ results (fst (_check_resources_list no_tools_server (MCPEvaluator [lit "srv"])))
     = []
  /\ results (fst (_check_resources_list (fixed_output_server [])
                     (MCPEvaluator [lit "srv"])))
     = [].
Proof.
  repeat split; vm_compute; reflexivity.
Qed.

(** * Further properties of the script *)

(** ** The table of children *)

Section Untouched.

Variable env : Env.







End Untouched.


Section ChildFate.

Variable env : Env.



End ChildFate.






(** ** What the first two probes report *)

Section Reports.

Variable env : Env.
Variable s : State.

(** The one result of the Server Startup probe, case by case. *)
Lemma startup_report :
  results (fst (_check_server_starts env s)) = results s ++
    [ match spawn env (server_command s) (List.length (children s)) with
      | Some e => if is_TimeoutError e then startup_timed_out
                  else startup_error env e
      | None =>
          match serve env (server_command s) (List.length (children s))
                  (startup_input env) with
          | Completes rc out err =>
              if match rc with 0%Z => true | _ => false end
                 || match out with [] => false | _ => true end
              then startup_ok
              else match decode err with
                   | Some text => startup_failed text
                   | None => startup_error env (UnicodeDecodeError err)
                   end
          | TimesOut => startup_timed_out
          | Fails e => if is_TimeoutError e then startup_timed_out
                       else startup_error env e
          end
      end ].
Proof.
  destruct (spawn env _ _) as [e|] eqn:Hspawn.
  - unfold _check_server_starts, try_except, _check_server_starts_body.
    unfold bind at 1. unfold create_subprocess_exec. rewrite Hspawn.
    unfold _check_server_starts_handler. destruct (is_TimeoutError e); reflexivity.
  - destruct (serve env _ _ _) as [rc out err| |e] eqn:Hserve.
    + rewrite (startup_completes env s rc out err Hspawn Hserve). cbv zeta.
      destruct (_ || _); [reflexivity|].
      destruct (decode err); reflexivity.
    + now rewrite (startup_times_out env s Hspawn Hserve).
    + unfold startup_input in Hserve.
      unfold _check_server_starts, try_except, _check_server_starts_body.
      unfold bind at 1. unfold create_subprocess_exec. rewrite Hspawn.
      unfold bind at 1. unfold wait_for_communicate.
      cbn [server_command children with_children]. rewrite Hserve.
      unfold _check_server_starts_handler. destruct (is_TimeoutError e); reflexivity.
Qed.

(** What the Tools List probe reads from the exchange: the exception
    raised; or [None] for a response without usable [tools]; or the
    number of tools. *)
Lemma tools_list_report :
  results (fst (_check_tools_list env s)) = results s ++
    match rbind (snd (_send_request env (lit "tools/list") (PyDict []) s))
            (fun result =>
             rbind (and_contains result (lit "tools")) (fun has_tools =>
             if has_tools : bool
             then rbind (getitem result (lit "tools")) (fun tools =>
                  rbind (len tools) (fun n => Ok (Some n)))
             else Ok None)) with
    | Err e => [tools_error env e]
    | Ok None => [tools_invalid]
    | Ok (Some n) =>
        tools_found n :: if Nat.eqb n 0 then [tools_count_warning] else []
    end.
Proof.
  pose proof (send_request_keeps_results env (lit "tools/list") (PyDict []) s)
    as Hres.
  unfold _check_tools_list, try_except, _check_tools_list_body.
  unfold bind at 1.
  destruct (_send_request env (lit "tools/list") (PyDict []) s)
    as [s1 [result|e]]; cbn [fst snd rbind] in *; rewrite <- Hres;
    [|reflexivity].
  unfold bind at 1. unfold lift at 1.
  destruct (and_contains result (lit "tools")) as [[|]|e]; cbn [rbind];
    try reflexivity.
  unfold bind at 1. unfold lift at 1.
  destruct (getitem result (lit "tools")) as [tools|e]; cbn [rbind];
    [|reflexivity].
  unfold bind at 1. unfold lift at 1.
  destruct (len tools) as [n|e]; cbn [rbind]; [|reflexivity].
  unfold bind, lift, append.
  cbn [fst snd results with_results].
  destruct (Nat.eqb n 0); cbn [fst snd results with_results ret];
    now rewrite <- ?app_assoc.
Qed.

End Reports.

Lemma startup_reports_once (env : Env) (s : State) :
  let pid := List.length (children s) in
  exists r,
    results (fst (_check_server_starts env s)) = results s ++ [r]
    /\ name r = lit "Server Startup"
    /\ (passed r = true <->
        spawn env (server_command s) pid = None
        /\ exists rc out err,
             serve env (server_command s) pid (startup_input env)
               = Completes rc out err
             /\ (rc = 0%Z \/ out <> []))
    /\ (passed r = false -> hard_failure r).
Proof.
  intros pid. subst pid. eexists. split; [apply startup_report|].
  destruct (spawn env _ _) as [e|].
  - destruct (is_TimeoutError e);
      (split; [reflexivity|]);
      (split; [split; [discriminate | intros [? _]; discriminate]|]);
      intros _; split; reflexivity.
  - destruct (serve env _ _ _) as [rc out err| |e].
    + destruct (_ || _) eqn:Hc.
      * split; [reflexivity|].
        split; [split; [intros _; split; [reflexivity|]|reflexivity]
               | discriminate].
        exists rc, out, err. split; [reflexivity|].
        destruct rc; [now left | right ..];
          destruct out; cbn in Hc; congruence.
      * assert (Hno : ~ (rc = 0%Z \/ out <> [])).
        { intros [-> | Hout]; [discriminate Hc|].
          destruct out; [congruence|].
          rewrite orb_true_r in Hc. discriminate. }
        destruct (decode err);
          (split; [reflexivity|]);
          (split; [split; [discriminate
                          | intros [_ (rc' & out' & err' & [= <- <- <-] & H)];
                            contradiction]|]);
          intros _; split; reflexivity.
    + split; [reflexivity|].
      split; [split; [discriminate
                     | intros [_ (? & ? & ? & H & _)]; discriminate]|].
      intros _; split; reflexivity.
    + destruct (is_TimeoutError e);
        (split; [reflexivity|]);
        (split; [split; [discriminate
                        | intros [_ (? & ? & ? & H & _)]; discriminate]|]);
        intros _; split; reflexivity.
Qed.

(** X3.  The Server Startup probe always appends exactly one result, named
    [Server Startup].  The result is passed exactly when the child was
    launched and its exchange completed with exit status 0 or with some
    output; every other result of the probe is a failed result of severity
    [error].  A launch failure is reported with the text of its exception,
    and so is standard error that is not UTF-8. *)
Theorem server_startup_always_reports_once (env : Env) (s : State) :
  let pid := List.length (children s) in
  exists r,
    results (fst (_check_server_starts env s)) = results s ++ [r]
    /\ name r = lit "Server Startup"
    /\ (passed r = true <->
        spawn env (server_command s) pid = None
        /\ exists rc out err,
             serve env (server_command s) pid (startup_input env)
               = Completes rc out err
             /\ (rc = 0%Z \/ out <> []))
    /\ (passed r = false -> hard_failure r)
    /\ (forall e, spawn env (server_command s) pid = Some e ->
                  is_TimeoutError e = false -> r = startup_error env e)
    /\ (forall rc err,
          spawn env (server_command s) pid = None ->
          serve env (server_command s) pid (startup_input env)
            = Completes rc [] err ->
          rc <> 0%Z -> decode err = None ->
          r = startup_error env (UnicodeDecodeError err)).
Proof.
  intros pid. subst pid.
  destruct (startup_reports_once env s) as (r & Hr & Hn & Hp & Hf).
  exists r. repeat match goal with |- _ /\ _ => split end;
    try assumption; try apply Hp.
  - intros e Hspawn He.
    rewrite startup_report, Hspawn, He in Hr.
    apply app_inv_head in Hr. now injection Hr.
  - intros rc err Hspawn Hserve Hrc Hdec.
    rewrite startup_report, Hspawn, Hserve, Hdec in Hr.
    replace (_ || _) with false in Hr
      by (destruct rc; first [congruence | reflexivity]).
    apply app_inv_head in Hr. now injection Hr.
Qed.

Lemma tools_list_first_result (env : Env) (s : State) :
  let exchange := snd (_send_request env (lit "tools/list") (PyDict []) s) in
  exists r rest,
    results (fst (_check_tools_list env s)) = results s ++ r :: rest
    /\ name r = lit "Tools List"
    /\ (passed r = false -> hard_failure r)
    /\ (passed r = true <->
        exists result tools n,
          exchange = Ok result
          /\ and_contains result (lit "tools") = Ok true
          /\ getitem result (lit "tools") = Ok tools
          /\ len tools = Ok n).
Proof.
  intros exchange. subst exchange. rewrite tools_list_report.
  destruct (snd (_send_request env (lit "tools/list") (PyDict []) s))
    as [result|e]; cbn [rbind].
  2:{ exists (tools_error env e), []. repeat split; auto; try discriminate.
      intros (? & ? & ? & H & _). discriminate. }
  destruct (and_contains result (lit "tools")) as [[|]|e] eqn:Hc; cbn [rbind].
  - destruct (getitem result (lit "tools")) as [tools|e] eqn:Hg; cbn [rbind].
    + destruct (len tools) as [n|e] eqn:Hl; cbn [rbind].
      * exists (tools_found n). eexists. split; [reflexivity|].
        split; [reflexivity|]. split; [discriminate|].
        split; [intros _; now exists result, tools, n | reflexivity].
      * exists (tools_error env e), []. repeat split; auto; try discriminate.
        intros (? & ? & ? & [= <-] & _ & H1 & H2). congruence.
    + exists (tools_error env e), []. repeat split; auto; try discriminate.
      intros (? & ? & ? & [= <-] & _ & H1 & _). congruence.
  - exists tools_invalid, []. repeat split; auto; try discriminate.
    intros (? & ? & ? & [= <-] & H1 & _). congruence.
  - exists (tools_error env e), []. repeat split; auto; try discriminate.
    intros (? & ? & ? & [= <-] & H1 & _). congruence.
Qed.

(** X4.  The Tools List probe appends one result named [Tools List], and
    after it at most the [Tools Count] warning, which comes only with the
    passed result for zero tools.  Its first result is passed exactly when
    the exchange returned a truthy result with a [tools] entry that has a
    length; otherwise it is a failed result of severity [error]. *)
Theorem tools_list_reports_once_or_warns (env : Env) (s : State) :
  let exchange := snd (_send_request env (lit "tools/list") (PyDict []) s) in
  exists r rest,
    results (fst (_check_tools_list env s)) = results s ++ r :: rest
    /\ name r = lit "Tools List"
    /\ (rest = [] \/ (r = tools_found 0 /\ rest = [tools_count_warning]))
    /\ (passed r = false -> hard_failure r)
    /\ (passed r = true <->
        exists result tools n,
          exchange = Ok result
          /\ and_contains result (lit "tools") = Ok true
          /\ getitem result (lit "tools") = Ok tools
          /\ len tools = Ok n).
Proof.
  intros exchange. subst exchange.
  destruct (tools_list_first_result env s) as (r & rest & Hr & Hn & Hf & Hp).
  exists r, rest. repeat match goal with |- _ /\ _ => split end;
    try assumption; try apply Hp.
  rewrite tools_list_report in Hr. apply app_inv_head in Hr.
  destruct (rbind _ _) as [[n|]|e].
  - destruct n; cbn [Nat.eqb] in Hr; injection Hr as <- <-;
      [right | left]; split; reflexivity.
  - injection Hr as <- <-. now left.
  - injection Hr as <- <-. now left.
Qed.

(** X5.  What the Tools List probe makes of the result of its exchange.
    A result that is falsy ([None], an empty object) or has no [tools]
    entry gives the one failed result [Invalid tools/list response].  A
    result whose [tools] entry has length [n] gives [Found n tool(s)],
    followed by the warning exactly when [n] is 0.  An exception of the
    exchange, and a [tools] entry that has no length, give the one failed
    result [Error listing tools: ...]; in the latter case no passed result
    is appended before it. *)
Theorem tools_list_decisions (env : Env) (s : State) :
  let exchange := snd (_send_request env (lit "tools/list") (PyDict []) s) in
  let appended := fun rs =>
    results (fst (_check_tools_list env s)) = results s ++ rs in
  (forall e, exchange = Err e -> appended [tools_error env e])
  /\ (forall result,
        exchange = Ok result ->
        and_contains result (lit "tools") = Ok false ->
        appended [tools_invalid])
  /\ (forall result tools n,
        exchange = Ok result ->
        and_contains result (lit "tools") = Ok true ->
        getitem result (lit "tools") = Ok tools ->
        len tools = Ok n ->
        appended (tools_found n
                  :: if Nat.eqb n 0 then [tools_count_warning] else []))
  /\ (forall result tools e,
        exchange = Ok result ->
        and_contains result (lit "tools") = Ok true ->
        getitem result (lit "tools") = Ok tools ->
        len tools = Err e ->
        appended [tools_error env e]).
Proof.
  intros exchange appended. subst appended.
  pose proof (tools_list_report env s) as H. fold exchange in H.
  repeat match goal with |- _ /\ _ => split end.
  - intros e He. now rewrite H, He.
  - intros result He Hc. rewrite H, He. cbn [rbind]. now rewrite Hc.
  - intros result tools n He Hc Hg Hl. rewrite H, He. cbn [rbind].
    rewrite Hc. cbn [rbind]. rewrite Hg. cbn [rbind]. now rewrite Hl.
  - intros result tools e He Hc Hg Hl. rewrite H, He. cbn [rbind].
    rewrite Hc. cbn [rbind]. rewrite Hg. cbn [rbind]. now rewrite Hl.
Qed.

Lemma tools_list_decisions_witness :
  results (fst (_check_tools_list (fixed_output_server (blines [bjs "{'id':2,'result':{'tools':5}}"]))
                  (MCPEvaluator [lit "srv"])))
    = [] ++ [tools_error (fixed_output_server (blines [bjs "{'id':2,'result':{'tools':5}}"]))
               (TypeError NoLen TInt)]
  /\ results (fst (_check_tools_list echo_server (MCPEvaluator [lit "srv"])))
     = [] ++ [tools_found 1]
  /\ results (fst (_check_tools_list (fixed_output_server (blines [bjs "{'id':2,'result':{}}"]))
                     (MCPEvaluator [lit "srv"])))
     = [] ++ [tools_invalid].
Proof.
  split; [|split].
  - apply (proj2 (proj2 (proj2 (tools_list_decisions _ (MCPEvaluator [lit "srv"]))))
             (PyDict [(lit "tools", PyInt 5)]) (PyInt 5) (TypeError NoLen TInt));
      vm_compute; reflexivity.
  - apply (proj1 (proj2 (proj2 (tools_list_decisions echo_server (MCPEvaluator [lit "srv"]))))
             (PyDict [(lit "tools", PyList [PyDict [(lit "name", PyStr (lit "echo"))]])])
             (PyList [PyDict [(lit "name", PyStr (lit "echo"))]]) 1%nat);
      vm_compute; reflexivity.
  - apply (proj1 (proj2 (tools_list_decisions _ (MCPEvaluator [lit "srv"])))
             (PyDict []));
      vm_compute; reflexivity.
Defined.

(** ** Whole runs *)

(** A run, up to its second probe: the state after Server Startup, with its
    one result and its one child, and the results of Tools List at the head
    of what follows. *)
Lemma run_shape (env : Env) (argv : list str) :
  (2 <= List.length argv)%nat ->
  exists s1 r1 a2 rest,
    fst (_check_server_starts env (with_results (MCPEvaluator (tl argv)) []))
      = s1
    /\ results s1 = [r1]
    /\ server_command s1 = tl argv
    /\ List.length (children s1) = 1%nat
    /\ results (fst (_check_tools_list env s1)) = results s1 ++ a2
    /\ results (fst (main env argv)) = r1 :: a2 ++ rest
    /\ snd (main env argv)
       = if overall_success (r1 :: a2 ++ rest) then 0%Z else 1%Z.
Proof.
  intros Hlen.
  destruct (main_runs env argv Hlen) as (s & out & E & Hmain).
  destruct (evaluate_accumulates env (MCPEvaluator (tl argv)))
    as (s1 & s2 & s3 & s4 & a1 & a2 & a3 & a4
        & E1 & E2 & E3 & E4 & R1 & R2 & R3 & R4 & _ & E').
  rewrite E' in E. injection E as <- _.
  destruct (server_starts_launches_one env (with_results (MCPEvaluator (tl argv)) []))
    as [C1 L1].
  destruct (startup_reports_once env (with_results (MCPEvaluator (tl argv)) []))
    as (r1 & H1 & _).
  rewrite E1 in C1, L1, H1. cbn in C1, L1, H1.
  assert (Ha1 : a1 = [r1]) by congruence. subst a1.
  exists s1, r1, a2, (a3 ++ a4).
  rewrite E1, E2, Hmain. cbn [fst snd with_console results].
  repeat split; try assumption.
  - now rewrite R4, Ha1.
  - now rewrite R4, Ha1.
Qed.

(** X6.  The list of results of every run starts with the result of
    Server Startup followed by the result of Tools List, so the report of a
    run never has fewer than two entries. *)
Theorem run_reports_startup_then_tools (env : Env) (argv : list str) :
  (2 <= List.length argv)%nat ->
  exists r1 r2 rest,
    results (fst (main env argv)) = r1 :: r2 :: rest
    /\ name r1 = lit "Server Startup"
    /\ name r2 = lit "Tools List".
Proof.
  intros Hlen.
  destruct (run_shape env argv Hlen)
    as (s1 & r1 & a2 & rest & Hs1 & R1 & C1 & L1 & R2 & Hres & _).
  destruct (startup_reports_once env (with_results (MCPEvaluator (tl argv)) []))
    as (r1' & H1 & N1 & _).
  rewrite Hs1, R1 in H1. cbn in H1. injection H1 as <-.
  destruct (tools_list_first_result env s1) as (r2 & rest2 & H2 & N2 & _).
  rewrite R2 in H2. apply app_inv_head in H2. subst a2.
  exists r1, r2, (rest2 ++ rest). now rewrite Hres.
Qed.

Lemma run_reports_startup_then_tools_witness :
  exists r1 r2 rest,
    results (fst (main missing_server demo_argv)) = r1 :: r2 :: rest
    /\ name r1 = lit "Server Startup"
    /\ name r2 = lit "Tools List".
Proof.
  apply (run_reports_startup_then_tools missing_server demo_argv).
  vm_compute; lia.
Defined.

(** X7.  A run ends with exit status 0 only if a server command was given,
    the first child was launched and completed its exchange with exit
    status 0 or with some output, and the second child was launched and
    completed its exchange with an answer to the request whose result is
    truthy and has a [tools] entry with a length. *)
Theorem exit_zero_needs_startup_and_tools (env : Env) (argv : list str) :
  snd (main env argv) = 0%Z ->
  let cmd := tl argv in
  (2 <= List.length argv)%nat
  /\ spawn env cmd 0 = None
  /\ (exists rc out err,
        serve env cmd 0 (startup_input env) = Completes rc out err
        /\ (rc = 0%Z \/ out <> []))
  /\ spawn env cmd 1 = None
  /\ (exists rc out err result tools n,
        serve env cmd 1 (tools_input env) = Completes rc out err
        /\ parse_responses out = Ok result
        /\ and_contains result (lit "tools") = Ok true
        /\ getitem result (lit "tools") = Ok tools
        /\ len tools = Ok n).
Proof.
  intros Hexit cmd. subst cmd.
  assert (Hlen : (2 <= List.length argv)%nat).
  { destruct (Nat.ltb_spec (List.length argv) 2) as [Hlt|]; [|assumption].
    unfold main in Hexit.
    destruct (Nat.ltb_spec (List.length argv) 2); [discriminate | lia]. }
  split; [assumption|].
  destruct (run_shape env argv Hlen)
    as (s1 & r1 & a2 & rest & Hs1 & R1 & C1 & L1 & R2 & Hres & Hstatus).
  rewrite Hexit in Hstatus.
  assert (Hok : overall_success (r1 :: a2 ++ rest) = true)
    by (destruct (overall_success _); [reflexivity | discriminate]).
  rewrite overall_success_iff in Hok.
  destruct (startup_reports_once env (with_results (MCPEvaluator (tl argv)) []))
    as (r1' & H1 & _ & P1 & F1).
  rewrite Hs1, R1 in H1. cbn in H1. injection H1 as <-.
  cbn [with_results MCPEvaluator server_command children List.length] in P1.
  assert (Hp1 : passed r1 = true).
  { destruct (passed r1) eqn:Hp; [reflexivity|].
    exfalso. apply (Hok r1); [now left | now apply F1]. }
  apply P1 in Hp1. destruct Hp1 as (Hsp0 & Hserve0).
  split; [assumption|]. split; [assumption|].
  destruct (tools_list_first_result env s1)
    as (r2 & rest2 & H2 & _ & F2 & P2).
  rewrite R2 in H2. apply app_inv_head in H2. subst a2.
  assert (Hp2 : passed r2 = true).
  { destruct (passed r2) eqn:Hp; [reflexivity|].
    exfalso. apply (Hok r2); [right; now left | now apply F2]. }
  apply P2 in Hp2. destruct Hp2 as (result & tools & n & Hex & Hc & Hg & Hl).
  rewrite send_request_runs in Hex. cbv zeta in Hex.
  rewrite C1, L1 in Hex. fold (tools_input env) in Hex.
  destruct (spawn env (tl argv) 1) as [e|]; [discriminate|].
  split; [reflexivity|].
  destruct (serve env (tl argv) 1 (tools_input env)) as [rc out err| |e];
    try discriminate.
  exists rc, out, err, result, tools, n. cbn [snd] in Hex. now repeat split.
Qed.

Lemma exit_zero_needs_startup_and_tools_witness :
  (2 <= List.length demo_argv)%nat
  /\ spawn no_tools_server (tl demo_argv) 0 = None.
Proof.
  destruct (exit_zero_needs_startup_and_tools no_tools_server demo_argv)
    as (H1 & H2 & _).
  - vm_compute; reflexivity.
  - split; assumption.
Defined.

(** ** Tool Schemas, entry by entry *)

Section ToolSchemas.

Variable env : Env.

(** The probe once the exchange has returned a result with a [tools] entry
    that can be iterated: the loop over its items, and the handler if the
    loop raises. *)
Lemma tool_schemas_runs (s s1 : State) (result tools : pyobj)
    (items : list pyobj) :
  _send_request env (lit "tools/list") (PyDict []) s = (s1, Ok result) ->
  and_contains result (lit "tools") = Ok true ->
  getitem result (lit "tools") = Ok tools ->
  iter tools = Ok items ->
  _check_tool_schemas env s
    = try_except (for_each items (check_tool env))
        (_check_tool_schemas_handler env) s1.
Proof.
  intros Hs Hc Hg Hi.
  unfold _check_tool_schemas, try_except, _check_tool_schemas_body.
  unfold bind at 1. rewrite Hs.
  unfold bind at 1. unfold lift at 1. rewrite Hc.
  unfold bind at 1. unfold lift at 1. rewrite Hg.
  unfold bind at 1. unfold lift at 1. rewrite Hi.
  reflexivity.
Qed.

Lemma check_tool_nameless (tool : pyobj) (s : State) :
  contains (lit "name") tool = Ok false ->
  check_tool env tool s = (with_results s (results s ++ [tool_nameless]), Ok tt).
Proof.
  intros H. unfold check_tool. unfold bind at 1. unfold lift at 1.
  rewrite H. reflexivity.
Qed.


Lemma for_each_nameless (pre rest : list pyobj) (s : State) :
  Forall (fun t => contains (lit "name") t = Ok false) pre ->
  for_each (pre ++ rest) (check_tool env) s
    = for_each rest (check_tool env)
        (with_results s
           (results s ++ repeat tool_nameless (List.length pre))).
Proof.
  intros H. revert s. induction H as [|t pre Ht _ IH]; intros s.
  - cbn [app List.length repeat]. rewrite app_nil_r. now destruct s.
  - cbn [app for_each List.length repeat]. unfold bind at 1.
    rewrite (check_tool_nameless t s Ht), IH.
    cbn [results with_results]. rewrite <- app_assoc. reflexivity.
Qed.

Lemma check_tool_with_schema (d sc : dict) (nm : pyobj) (s : State) :
  dict_lookup d (lit "name") = Some nm ->
  dict_lookup d (lit "inputSchema") = Some (PyDict sc) ->
  check_tool env (PyDict d) s
    = (with_results s
         (results s
          ++ (if match dict_lookup d (lit "description") with
                 | Some v => negb (truthy v)
                 | None => true
                 end
              then [description_warning env nm] else [])
          ++ (if eq_str (member sc (lit "type")) (lit "object")
              then [] else [schema_type_warning env nm])),
       Ok tt).
Proof.
  intros Hname Hschema. unfold check_tool.
  unfold bind at 1. unfold lift at 1. unfold contains at 1. rewrite Hname.
  cbn [negb]. unfold bind at 1. unfold lift at 1. unfold getitem at 1.
  rewrite Hname.
  unfold bind at 1. unfold lift at 1. unfold description_missing, contains at 1.
  unfold getitem at 1.
  assert (Hd : rbind
                 (Ok match dict_lookup d (lit "description") with
                     | Some _ => true
                     | None => false
                     end)
                 (fun present : bool =>
                    if present
                    then rbind
                           match dict_lookup d (lit "description") with
                           | Some x => Ok x
                           | None => Err (KeyError (lit "description"))
                           end (fun d0 => Ok (negb (truthy d0)))
                    else Ok true)
               = Ok match dict_lookup d (lit "description") with
                    | Some v => negb (truthy v)
                    | None => true
                    end)
    by (destruct (dict_lookup d (lit "description")); reflexivity).
  rewrite Hd. clear Hd.
  set (missing := match dict_lookup d (lit "description") with
                  | Some v => negb (truthy v)
                  | None => true
                  end).
  unfold bind at 1.
  assert (Hm : (if missing
                then append (description_warning env nm)
                else ret tt) s
               = (with_results s
                    (results s
                     ++ if missing then [description_warning env nm] else []),
                  Ok tt)).
  { destruct missing; [reflexivity|]. unfold ret. rewrite app_nil_r.
    now destruct s. }
  unfold description_warning in Hm at 1. rewrite Hm. clear Hm.
  unfold bind at 1. unfold lift at 1. unfold contains at 1. rewrite Hschema.
  unfold bind at 1. unfold lift at 1. unfold getitem at 1. rewrite Hschema.
  unfold bind at 1. unfold lift at 1. unfold get. fold (member sc (lit "type")).
  destruct (eq_str (member sc (lit "type")) (lit "object")); cbn [negb].
  - unfold ret. now rewrite app_nil_r.
  - unfold append. cbn [results with_results]. now rewrite <- app_assoc.
Qed.

End ToolSchemas.

(** X8.  A tool entry with a [name] and an [inputSchema] object gets a
    failed/warning result for its description when it has none or a falsy
    one (an empty string counts as missing), then a failed/warning result
    for its schema when the [type] of the schema is not the string
    [object] (a schema without [type] included); an entry with a truthy
    description and a schema of type [object] gets no result at all. *)
Theorem tool_with_schema_findings (env : Env) (d sc : dict) (nm : pyobj)
    (s : State) :
  dict_lookup d (lit "name") = Some nm ->
  dict_lookup d (lit "inputSchema") = Some (PyDict sc) ->
  let no_description :=
    match dict_lookup d (lit "description") with
    | Some v => negb (truthy v)
    | None => true
    end in
  let type_is_object := eq_str (member sc (lit "type")) (lit "object") in
  check_tool env (PyDict d) s
    = (with_results s
         (results s
          ++ (if no_description then [description_warning env nm] else [])
          ++ (if type_is_object then [] else [schema_type_warning env nm])),
       Ok tt)
  /\ (no_description = false -> type_is_object = true ->
      results (fst (check_tool env (PyDict d) s)) = results s).
Proof.
  intros Hname Hschema nd ty. subst nd ty.
  rewrite (check_tool_with_schema env d sc nm s Hname Hschema).
  split; [reflexivity|].
  intros -> ->. cbn. now rewrite app_nil_r.
Qed.

Lemma tool_with_schema_findings_witness :
  results (fst (check_tool echo_server
                  (PyDict [ (lit "name", PyStr (lit "add"));
                            (lit "description", PyStr []);
                            (lit "inputSchema", PyDict []) ])
                  (MCPEvaluator [lit "srv"])))
  = [ description_warning echo_server (PyStr (lit "add"));
      schema_type_warning echo_server (PyStr (lit "add")) ].
Proof.
  rewrite (proj1 (tool_with_schema_findings echo_server
                    [ (lit "name", PyStr (lit "add"));
                      (lit "description", PyStr []);
                      (lit "inputSchema", PyDict []) ]
                    [] (PyStr (lit "add")) (MCPEvaluator [lit "srv"])
                    eq_refl eq_refl)).
  reflexivity.
Defined.

(** X9.  An entry without a [name] gets the one failed/error result
    [Tool missing 'name' field] and the loop goes on with the next entry:
    when no entry of the listing has a name, the probe appends one such
    result per entry. *)
Theorem nameless_tools_each_get_an_error (env : Env) (s s1 : State)
    (result tools : pyobj) (items : list pyobj) :
  _send_request env (lit "tools/list") (PyDict []) s = (s1, Ok result) ->
  and_contains result (lit "tools") = Ok true ->
  getitem result (lit "tools") = Ok tools ->
  iter tools = Ok items ->
  Forall (fun t => contains (lit "name") t = Ok false) items ->
  results (fst (_check_tool_schemas env s))
    = results s ++ repeat tool_nameless (List.length items).
Proof.
  intros Hs Hc Hg Hi Hall.
  pose proof (send_request_keeps_results env (lit "tools/list") (PyDict []) s)
    as Hres.
  rewrite Hs in Hres. cbn [fst] in Hres.
  rewrite (tool_schemas_runs env s s1 result tools items Hs Hc Hg Hi).
  unfold try_except.
  pose proof (for_each_nameless env items [] s1 Hall) as Hloop.
  rewrite app_nil_r in Hloop. rewrite Hloop.
  cbn [for_each ret fst results with_results]. now rewrite Hres.
Qed.

Lemma nameless_tools_each_get_an_error_witness :
  results (fst (_check_tool_schemas
                  (demo_server (bjs "{'tools':[{'title':'a'},{},['x']]}"))
                  (MCPEvaluator [lit "srv"])))
  = [] ++ repeat tool_nameless 3.
Proof.
  apply (nameless_tools_each_get_an_error
           (demo_server (bjs "{'tools':[{'title':'a'},{},['x']]}"))
           (MCPEvaluator [lit "srv"])
           (with_children (MCPEvaluator [lit "srv"]) [Exited 0])
           (PyDict [(lit "tools",
                     PyList [ PyDict [(lit "title", PyStr (lit "a"))];
                              PyDict []; PyList [PyStr (lit "x")] ])])
           (PyList [ PyDict [(lit "title", PyStr (lit "a"))];
                     PyDict []; PyList [PyStr (lit "x")] ])
           [ PyDict [(lit "title", PyStr (lit "a"))];
             PyDict []; PyList [PyStr (lit "x")] ]).
  - vm_compute; reflexivity.
  - vm_compute; reflexivity.
  - reflexivity.
  - reflexivity.
  - repeat constructor.
Defined.



(** X11.  Where the Tools List probe reports [Invalid tools/list
    response], the Tool Schemas probe reports nothing: for a result of the
    exchange that is falsy or has no [tools] entry it appends no result,
    and it appends none for an empty [tools] list either. *)
Theorem tool_schemas_is_silent_without_tools (env : Env) (s : State)
    (result : pyobj) :
  snd (_send_request env (lit "tools/list") (PyDict []) s) = Ok result ->
  (and_contains result (lit "tools") = Ok false
   \/ (and_contains result (lit "tools") = Ok true
       /\ getitem result (lit "tools") = Ok (PyList []))) ->
  results (fst (_check_tool_schemas env s)) = results s
  /\ (and_contains result (lit "tools") = Ok false ->
      results (fst (_check_tools_list env s)) = results s ++ [tools_invalid]).
Proof.
  intros Hex Hcase.
  pose proof (send_request_keeps_results env (lit "tools/list") (PyDict []) s)
    as Hres.
  destruct (_send_request env (lit "tools/list") (PyDict []) s)
    as [s1 r] eqn:Hs. cbn [fst snd] in *. subst r.
  split.
  - destruct Hcase as [Hc | [Hc Hg]].
    + unfold _check_tool_schemas, try_except, _check_tool_schemas_body.
      unfold bind at 1. rewrite Hs.
      unfold bind at 1. unfold lift at 1. rewrite Hc. assumption.
    + rewrite (tool_schemas_runs env s s1 result (PyList []) [] Hs Hc Hg eq_refl).
      assumption.
  - intros Hc. rewrite tools_list_report, Hs. cbn [snd rbind]. now rewrite Hc.
Qed.

Lemma tool_schemas_is_silent_without_tools_witness :
  results (fst (_check_tool_schemas crashing_server (MCPEvaluator [lit "srv"])))
  = results (MCPEvaluator [lit "srv"]).
Proof.
  apply (tool_schemas_is_silent_without_tools crashing_server
           (MCPEvaluator [lit "srv"]) PyNone).
  - reflexivity.
  - left; reflexivity.
Defined.

(** ** The printed report *)

Section Printing.











End Printing.




(** ** Noise in the output *)


(** ** How failures surface *)

(** X14.  Output that makes the response loop raise (it is not UTF-8, or
    one of its lines is JSON but not an object) is a failed/error result
    for the Tools List probe and for the Tool Schemas probe, and the
    passed/info result [Resources not implemented (optional)] for the
    Resources List probe. *)
Theorem malformed_output_per_probe (env : Env) (s : State)
    (rc : Z) (out err : bytes) (e : exn) :
  spawn env (server_command s) (List.length (children s)) = None ->
  parse_responses out = Err e ->
  (serve env (server_command s) (List.length (children s)) (tools_input env)
     = Completes rc out err ->
   results (fst (_check_tools_list env s)) = results s ++ [tools_error env e]
   /\ results (fst (_check_tool_schemas env s))
      = results s ++ [schemas_error env e])
  /\
  (serve env (server_command s) (List.length (children s)) (resources_input env)
     = Completes rc out err ->
   results (fst (_check_resources_list env s))
     = results s ++ [resources_optional]).
Proof.
  intros Hspawn Hparse. unfold tools_input, resources_input. split.
  - intros Hserve. split.
    + unfold _check_tools_list, try_except, _check_tools_list_body.
      unfold bind at 1. rewrite send_request_runs, Hspawn, Hserve, Hparse.
      reflexivity.
    + unfold _check_tool_schemas, try_except, _check_tool_schemas_body.
      unfold bind at 1. rewrite send_request_runs, Hspawn, Hserve, Hparse.
      reflexivity.
  - intros Hserve.
    unfold _check_resources_list, try_except, _check_resources_list_body.
    unfold bind at 1. rewrite send_request_runs, Hspawn, Hserve, Hparse.
    reflexivity.
Qed.

Lemma malformed_output_per_probe_witness :
  results (fst (_check_tools_list
                  (fixed_output_server (blines [blit "42"; bjs answer_line]))
                  (MCPEvaluator [lit "srv"])))
  = [] ++ [tools_error
             (fixed_output_server (blines [blit "42"; bjs answer_line]))
             (AttributeError TInt (lit "get"))].
Proof.
  apply (proj1 (malformed_output_per_probe
                  (fixed_output_server (blines [blit "42"; bjs answer_line]))
                  (MCPEvaluator [lit "srv"]) 0%Z
                  (blines [blit "42"; bjs answer_line]) []
                  (AttributeError TInt (lit "get"))
                  eq_refl ltac:(vm_compute; reflexivity))).
  reflexivity.
Defined.

(** The states between the probes of a run: each probe returns, keeps the
    command and has launched one more child. *)
Lemma run_states (env : Env) (cmd : list str) :
  exists s1 s2 s3 s4,
    _check_server_starts env (with_results (MCPEvaluator cmd) []) = (s1, Ok tt)
    /\ _check_tools_list env s1 = (s2, Ok tt)
    /\ _check_tool_schemas env s2 = (s3, Ok tt)
    /\ _check_resources_list env s3 = (s4, Ok tt)
    /\ evaluate env (MCPEvaluator cmd) = (s4, Ok (results s4))
    /\ server_command s1 = cmd /\ List.length (children s1) = 1%nat
    /\ server_command s2 = cmd /\ List.length (children s2) = 2%nat
    /\ server_command s3 = cmd /\ List.length (children s3) = 3%nat.
Proof.
  destruct (evaluate_unfolds env (MCPEvaluator cmd))
    as (s1 & s2 & s3 & s4 & E1 & E2 & E3 & E4 & E).
  destruct (server_starts_launches_one env (with_results (MCPEvaluator cmd) []))
    as [C1 L1].
  destruct (tools_list_launches_one env s1) as [C2 L2].
  destruct (tool_schemas_launches_one env s2) as [C3 L3].
  rewrite E1 in C1, L1. rewrite E2 in C2, L2. rewrite E3 in C3, L3.
  cbn [fst with_results MCPEvaluator server_command children List.length] in *.
  exists s1, s2, s3, s4. repeat split; try assumption; congruence.
Qed.

Lemma tool_schemas_exchange_fails (env : Env) (s : State) (e : exn) :
  snd (_send_request env (lit "tools/list") (PyDict []) s) = Err e ->
  results (fst (_check_tool_schemas env s)) = results s ++ [schemas_error env e].
Proof.
  intros H.
  pose proof (send_request_keeps_results env (lit "tools/list") (PyDict []) s)
    as Hres.
  unfold _check_tool_schemas, try_except, _check_tool_schemas_body.
  unfold bind at 1.
  destruct (_send_request env (lit "tools/list") (PyDict []) s) as [s1 r].
  cbn [fst snd] in *. subst r. now rewrite <- Hres.
Qed.

(** X15.  When the server command cannot be launched at all, the run has
    exactly four results, one per probe: three failed results of severity
    [error] and the passed/info result of the Resources List probe; and it
    ends with exit status 1. *)
Theorem unlaunchable_command_fails_the_run (env : Env) (argv : list str)
    (e0 e1 e2 e3 : exn) :
  (2 <= List.length argv)%nat ->
  spawn env (tl argv) 0 = Some e0 ->
  spawn env (tl argv) 1 = Some e1 ->
  spawn env (tl argv) 2 = Some e2 ->
  spawn env (tl argv) 3 = Some e3 ->
  results (fst (main env argv))
    = [ if is_TimeoutError e0 then startup_timed_out else startup_error env e0;
        tools_error env e1; schemas_error env e2; resources_optional ]
  /\ snd (main env argv) = 1%Z.
Proof.
  intros Hlen H0 H1 H2 H3.
  destruct (run_states env (tl argv))
    as (s1 & s2 & s3 & s4 & E1 & E2 & E3 & E4 & E
        & C1 & L1 & C2 & L2 & C3 & L3).
  pose proof (startup_report env (with_results (MCPEvaluator (tl argv)) []))
    as R1.
  cbn [with_results MCPEvaluator server_command children results
       List.length app] in R1.
  rewrite H0, E1 in R1. cbn [fst] in R1.
  pose proof (tools_list_report env s1) as R2.
  rewrite send_request_runs, C1, L1, H1, E2 in R2. cbn [fst snd rbind] in R2.
  pose proof (tool_schemas_exchange_fails env s2 e2) as R3.
  rewrite send_request_runs, C2, L2, H2, E3 in R3. cbn [fst snd] in R3.
  specialize (R3 eq_refl).
  pose proof (resources_list_runs env s3) as R4.
  rewrite send_request_runs, C3, L3, H3, E4 in R4. cbn [fst snd] in R4.
  destruct (main_runs env argv Hlen) as (s & out & E' & ->).
  rewrite E in E'. injection E' as <-.
  cbn [fst snd with_console results].
  rewrite R4, R3, R2, R1. cbn [app]. split; [reflexivity|].
  replace (overall_success _) with false; [reflexivity|].
  unfold overall_success. cbn [filter].
  replace (is_error (tools_error env e1)) with true by reflexivity.
  destruct (is_error _), (is_error (schemas_error env e2)),
    (is_error resources_optional); reflexivity.
Qed.

Lemma unlaunchable_command_fails_the_run_witness :
  snd (main missing_server demo_argv) = 1%Z.
Proof.
  apply (unlaunchable_command_fails_the_run missing_server demo_argv
           (OSError 2) (OSError 2) (OSError 2) (OSError 2));
    first [reflexivity | vm_compute; lia].
Defined.

(** X16.  Without a server command [main] prints the two usage lines,
    launches no child, runs no probe and ends with exit status 1; and
    whatever its arguments and the server, its exit status is 0 or 1. *)
Theorem main_without_command_prints_usage (env : Env) (argv : list str) :
  ((List.length argv < 2)%nat ->
   main env argv
   = ({| server_command := []; results := []; children := [];
         console := usage_text |}, 1%Z))
  /\ (snd (main env argv) = 0%Z \/ snd (main env argv) = 1%Z).
Proof.
  split.
  - intros Hlt. unfold main.
    destruct (Nat.ltb_spec (List.length argv) 2); [reflexivity | lia].
  - destruct (Nat.ltb_spec (List.length argv) 2) as [Hlt|Hge].
    + right. unfold main.
      destruct (Nat.ltb_spec (List.length argv) 2); [reflexivity | lia].
    + destruct (main_runs env argv Hge) as (s & out & _ & ->).
      cbn [snd]. destruct (overall_success _); auto.
Qed.

Lemma main_without_command_prints_usage_witness :
  main hanging_server [lit "evaluation.py"]
  = ({| server_command := []; results := []; children := [];
        console := usage_text |}, 1%Z).
Proof.
  apply (proj1 (main_without_command_prints_usage hanging_server
                  [lit "evaluation.py"])).
  vm_compute; lia.
Defined.

(** ** When a run succeeds *)

Section Success.

Variable env : Env.





End Success.



(** The Server Startup probe against a command that cannot be launched,
    and the Tools List probe against a server without tools. *)
Lemma server_startup_always_reports_once_witness :
  exists r,
    results (fst (_check_server_starts missing_server (MCPEvaluator [lit "srv"])))
      = [] ++ [r]
    /\ r = startup_error missing_server (OSError 2).
Proof.
  destruct (server_startup_always_reports_once missing_server
              (MCPEvaluator [lit "srv"])) as (r & H & _ & _ & _ & He & _).
  exists r. split; [exact H|]. apply He; reflexivity.
Defined.

Lemma tools_list_reports_once_or_warns_witness :
  exists r rest,
    results (fst (_check_tools_list hanging_server (MCPEvaluator [lit "srv"])))
      = [] ++ r :: rest
    /\ hard_failure r.
Proof.
  destruct (tools_list_reports_once_or_warns hanging_server
              (MCPEvaluator [lit "srv"])) as (r & rest & H & _ & _ & Hf & _).
  exists r, rest. split; [exact H|]. apply Hf.
  vm_compute in H. injection H as <- _. reflexivity.
Defined.
